(** * chat_simulator: a shallow embedding of the transcript segmenter
      ([chat_parser.py]) and of the bubble layout and rendering routine
      ([chat_simulator.py]), with the properties of the specification
      checked against them. *)

From Stdlib Require Import String Ascii.
From Stdlib Require Import List ZArith NArith Lia Bool.
From Stdlib Require Import Numbers.DecimalString Numbers.DecimalPos Numbers.DecimalZ.
Import ListNotations.

Open Scope Z_scope.

(** ** Python strings

    A Python [str] is a sequence of Unicode code points; it is modelled as
    a list of code points, so that list lemmas apply to slicing and
    concatenation. *)

Definition pystr := list N.

(** Literals of the source are written as Rocq strings and read character
    by character ([u "sender"]). *)
Definition u (s : string) : pystr := map N_of_ascii (list_ascii_of_string s).

Definition str_nonempty (s : pystr) : bool :=
  match s with [] => false | _ :: _ => true end.

Fixpoint str_eqb (a b : pystr) : bool :=
  match a, b with
  | [], [] => true
  | x :: a', y :: b' => N.eqb x y && str_eqb a' b'
  | _, _ => false
  end.

(** [str.isspace] on one character: the code points CPython treats as
    whitespace in [str.strip()] and [str.split()] without arguments. *)
Definition isspace (c : N) : bool :=
  ((9 <=? c) && (c <=? 13) || (28 <=? c) && (c <=? 32)
   || (c =? 133) || (c =? 160) || (c =? 5760)
   || (8192 <=? c) && (c <=? 8202)
   || (c =? 8232) || (c =? 8233) || (c =? 8239) || (c =? 8287)
   || (c =? 12288))%N.

Fixpoint lstrip (s : pystr) : pystr :=
  match s with
  | [] => []
  | c :: s' => if isspace c then lstrip s' else s
  end.

Definition rstrip (s : pystr) : pystr := rev (lstrip (rev s)).

(** [s.strip()] *)
Definition strip (s : pystr) : pystr := rstrip (lstrip s).

(** [s.startswith(p)] *)
Fixpoint startswith (s p : pystr) : bool :=
  match p with
  | [] => true
  | x :: p' =>
      match s with
      | [] => false
      | y :: s' => N.eqb x y && startswith s' p'
      end
  end.

(** [s.split()]: the maximal runs of non-whitespace characters.  [cur] is
    the run being read, most recent character first. *)
Fixpoint split_aux (cur : pystr) (s : pystr) : list pystr :=
  match s with
  | [] => if str_nonempty cur then [rev cur] else []
  | c :: s' =>
      if isspace c
      then (if str_nonempty cur then rev cur :: split_aux [] s'
            else split_aux [] s')
      else split_aux (c :: cur) s'
  end.

Definition split (s : pystr) : list pystr := split_aux [] s.

(** What [split] returns: words that are not empty and hold no
    whitespace. *)
Definition word_ok (w : pystr) : Prop :=
  w <> [] /\ Forall (fun c => isspace c = false) w.

Definition space : pystr := [32%N].

(** [" ".join(parts)] *)
Fixpoint join_space (parts : list pystr) : pystr :=
  match parts with
  | [] => []
  | [p] => p
  | p :: rest => p ++ space ++ join_space rest
  end.

(** Iterating over a text file opened with the default [newline=None]:
    each of "\n", "\r" and "\r\n" ends a line and is read as "\n"; the
    line keeps its terminator; a last line without one is still read. *)
Fixpoint readlines_aux (cur : pystr) (s : pystr) : list pystr :=
  match s with
  | [] => if str_nonempty cur then [rev cur] else []
  | c :: s' =>
      if (c =? 10)%N then rev (10%N :: cur) :: readlines_aux [] s'
      else if (c =? 13)%N then
        match s' with
        | c2 :: s'' =>
            if (c2 =? 10)%N then rev (10%N :: cur) :: readlines_aux [] s''
            else rev (10%N :: cur) :: readlines_aux [] s'
        | [] => rev (10%N :: cur) :: readlines_aux [] s'
        end
      else readlines_aux (c :: cur) s'
  end.

Definition readlines (content : pystr) : list pystr := readlines_aux [] content.

(** ** chat_parser.py *)

Module Parser.

(** A turn is the tuple [(role, text)]; the role is a string. *)
Definition turn : Type := pystr * pystr.
Definition conversation : Type := list turn.

(** The body of the [for line in f] loop, on the pair
    [(conversations, current_conversation)]. *)
Definition parse_line (line : pystr) (st : list conversation * conversation)
  : list conversation * conversation :=
  let '(conversations, current_conversation) := st in
  let stripped := strip line in
  if startswith stripped (u "A: ") then
    let role := u "sender" in
    let text := strip (skipn 3 stripped) in
    (conversations, current_conversation ++ [(role, text)])
  else if startswith stripped (u "B: ") then
    let role := u "receiver" in
    let text := strip (skipn 3 stripped) in
    (conversations, current_conversation ++ [(role, text)])
  else
    match current_conversation with
    | _ :: _ => (conversations ++ [current_conversation], [])
    | [] => (conversations, current_conversation)
    end.

Fixpoint parse_loop (lines : list pystr)
  (st : list conversation * conversation) : list conversation * conversation :=
  match lines with
  | [] => st
  | line :: rest => parse_loop rest (parse_line line st)
  end.

(** The end of [parse_conversations]: the conversation in progress is
    appended when it is not empty. *)
Definition finish (st : list conversation * conversation) : list conversation :=
  let '(conversations, current_conversation) := st in
  match current_conversation with
  | _ :: _ => conversations ++ [current_conversation]
  | [] => conversations
  end.

(** [parse_conversations] on the lines of the file. *)
Definition parse_lines (lines : list pystr) : list conversation :=
  let '(conversations, current_conversation) := parse_loop lines ([], []) in
  match current_conversation with
  | _ :: _ => conversations ++ [current_conversation]
  | [] => conversations
  end.

(** [parse_conversations], on the decoded content of the file. *)
Definition parse_conversations (content : pystr) : list conversation :=
  parse_lines (readlines content).

(** What the loop does with one line: [Some] turn, or [None] when the line
    ends the conversation in progress. *)
Definition classify (line : pystr) : option turn :=
  let stripped := strip line in
  if startswith stripped (u "A: ") then
    Some (u "sender", strip (skipn 3 stripped))
  else if startswith stripped (u "B: ") then
    Some (u "receiver", strip (skipn 3 stripped))
  else None.

(** The segmenter as the specification words it: the prefix is looked for
    on the line as it stands. *)
Definition spec_classify (line : pystr) : option turn :=
  if startswith line (u "A: ") then Some (u "sender", strip (skipn 3 line))
  else if startswith line (u "B: ") then Some (u "receiver", strip (skipn 3 line))
  else None.

(** The segmenter in the words of the specification, for a given
    classification of the lines: a turn joins the conversation in progress;
    any other line closes it when it is not empty; the conversation in
    progress at the end of the input is emitted. *)
Fixpoint segment (classify : pystr -> option turn) (cur : conversation)
  (lines : list pystr) : list conversation :=
  match lines with
  | [] => match cur with [] => [] | _ :: _ => [cur] end
  | line :: rest =>
      match classify line with
      | Some t => segment classify (cur ++ [t]) rest
      | None =>
          match cur with
          | [] => segment classify [] rest
          | _ :: _ => cur :: segment classify [] rest
          end
      end
  end.

Definition spec_segmenter (content : pystr) : list conversation :=
  segment spec_classify [] (readlines content).

End Parser.

(** ** chat_simulator.py *)

Module Simulator.

(** The exceptions the routine could raise on its own data. *)
Inductive exn : Type :=
| ValueError  (* max() of an empty sequence *)
| IndexError. (* list index out of range *)

Inductive result (A : Type) : Type :=
| Ok (a : A)
| Raise (e : exn).
Arguments Ok {A} a.
Arguments Raise {A} e.

Definition bind {A B : Type} (c : result A) (k : A -> result B) : result B :=
  match c with
  | Ok a => k a
  | Raise e => Raise e
  end.

Notation "x <- c ;; k" := (bind c (fun x => k))
  (at level 61, c at next level, right associativity).

(** [max(l)] *)
Definition py_max (l : list Z) : result Z :=
  match l with
  | [] => Raise ValueError
  | x :: rest => Ok (fold_left Z.max rest x)
  end.

(** [sum(l)] *)
Definition py_sum (l : list Z) : Z := fold_left Z.add l 0.

(** [l[i]], a negative index counting from the end. *)
Definition py_index {A : Type} (l : list A) (i : Z) : result A :=
  let n := Z.of_nat (length l) in
  let j := if i <? 0 then i + n else i in
  if (j <? 0) || (n <=? j) then Raise IndexError
  else match nth_error l (Z.to_nat j) with
       | Some x => Ok x
       | None => Raise IndexError
       end.

Definition len {A : Type} (l : list A) : Z := Z.of_nat (length l).

Definition turn : Type := pystr * pystr.

Definition color : Type := Z * Z * Z.

(** [(left, top, right, bottom)] *)
Definition box : Type := Z * Z * Z * Z.

Definition box_left (b : box) : Z := let '(l, _, _, _) := b in l.
Definition box_top (b : box) : Z := let '(_, t, _, _) := b in t.
Definition box_right (b : box) : Z := let '(_, _, r, _) := b in r.
Definition box_bottom (b : box) : Z := let '(_, _, _, b') := b in b'.

(** The keyword arguments of [generate_chat_image], [messages] apart. *)
Record config : Type := {
  output_file : pystr;
  image_size : Z * Z;
  bubble_font_size : Z;
  time_font_size : Z;
  bottom_padding : Z;
  left_margin : Z;
  right_margin : Z;
  bubble_margin : Z;
  same_person_margin : Z
}.

Definition default_config : config := {|
  output_file := u "conversation.png";
  image_size := (1290, 1290);
  bubble_font_size := 36;
  time_font_size := 28;
  bottom_padding := 65;
  left_margin := 108;
  right_margin := 108;
  bubble_margin := 22;
  same_person_margin := 2
|}.

(** [str(n)] for an integer. *)
Definition str_of_int (n : Z) : pystr := u (NilZero.string_of_int (Z.to_int n)).

Fixpoint zeros (k : nat) : pystr :=
  match k with
  | O => []
  | S k' => 48%N :: zeros k'
  end.

(** Left padding with the digit zero up to [width] characters. *)
Definition zfill (s : pystr) (width : nat) : pystr :=
  zeros (width - length s) ++ s.

(** The format [{n:02d}]: the sign first, then zeros up to two characters
    in all. *)
Definition format_02d (n : Z) : pystr :=
  if n <? 0 then u "-" ++ zfill (str_of_int (- n)) 1
  else zfill (str_of_int n) 2.

(** [random.randint(a, b)] returns some integer [v] with [a <= v <= b]. *)
Definition randint (a b v : Z) : Prop := a <= v <= b.

(** [generate_random_timestamp], from the two values drawn. *)
Definition generate_random_timestamp (rand_hour rand_minute : Z) : pystr :=
  format_02d rand_hour ++ u ":" ++ format_02d rand_minute.

Section Render.

(** The collaborators: fonts, the bounding box of a rendered text, and the
    floating-point computation of the text width budget. *)
Variable Font : Type.

(** [load_ios_fonts(font_size, time_size)]: which fonts comes back depends
    on the files present; it always returns a pair. *)
Variable load_ios_fonts : Z -> Z -> Font * Font.

(** [draw_obj.textbbox((0, 0), text, font=font)] *)
Variable textbbox : pystr -> Font -> Z * Z * Z * Z.

(** [int((img_width * bubble_max_fraction) - (2 * bubble_padding))], which
    the source computes in floating point. *)
Variable max_text_width_of : Z -> Z.

Inductive draw_op : Type :=
| rounded_rectangle (coords : box) (radius : Z) (fill outline : color) (width : Z)
| text (xy : Z * Z) (s : pystr) (fill : color) (font : Font).

Record image : Type := {
  img_size : Z * Z;
  img_background : color;
  img_ops : list draw_op
}.

Definition measure_text (s : pystr) (font : Font) : Z * Z :=
  let '(x0, y0, x1, y1) := textbbox s font in
  (x1 - x0, y1 - y0).

(** The loop of [wrap_text] over the words, on [(lines, current_line)]. *)
Fixpoint wrap_loop (font : Font) (max_width : Z) (words : list pystr)
  (lines : list pystr) (current_line : pystr) : list pystr * pystr :=
  match words with
  | [] => (lines, current_line)
  | word :: rest =>
      let test_line :=
        current_line ++ (if str_nonempty current_line then space else []) ++ word in
      let '(w, _) := measure_text test_line font in
      if w <=? max_width then wrap_loop font max_width rest lines test_line
      else
        let lines := if str_nonempty current_line
                     then lines ++ [current_line] else lines in
        wrap_loop font max_width rest lines word
  end.

Definition wrap_text (s : pystr) (font : Font) (max_width : Z) : list pystr :=
  let words := split s in
  let '(lines, current_line) := wrap_loop font max_width words [] [] in
  if str_nonempty current_line then lines ++ [current_line] else lines.

Definition bubble_padding : Z := 32.
Definition line_spacing : Z := 8.
Definition corner_radius : Z := 50.

(** [draw_chat_bubble] *)
Definition draw_chat_bubble (bubble_coords : box) (radius : Z)
  (bubble_color outline_color : color) : draw_op :=
  rounded_rectangle bubble_coords radius bubble_color outline_color 3.

(** The loop that renders the lines of one bubble. *)
Fixpoint draw_lines (font : Font) (text_x text_y line_height : Z)
  (nlines idx : Z) (lines : list pystr) : list draw_op :=
  match lines with
  | [] => []
  | line :: rest =>
      let op := text (text_x, text_y) line (0, 0, 0) font in
      let text_y := text_y + line_height in
      let text_y := if idx <? nlines - 1 then text_y + line_spacing else text_y in
      op :: draw_lines font text_x text_y line_height nlines (idx + 1) rest
  end.

Record state : Type := {
  current_y : Z;
  bottom_bubble_box : option box;
  top_bubble_box : option box;
  drawn : list draw_op
}.

(** Width and height of the text block and the height of a line. *)
Definition text_block (font_bubble : Font) (lines : list pystr)
  : result (Z * Z * Z) :=
  let line_widths := map (fun line => fst (measure_text line font_bubble)) lines in
  let line_heights := map (fun line => snd (measure_text line font_bubble)) lines in
  match lines with
  | _ :: _ =>
      text_block_width <- py_max line_widths ;;
      let text_block_height := py_sum line_heights + line_spacing * (len lines - 1) in
      line_height <- py_index line_heights 0 ;;
      Ok (text_block_width, text_block_height, line_height)
  | [] =>
      Ok (0, 0, snd (measure_text (u "Test") font_bubble))
  end.

(** The body of the loop over [enumerate(reversed_messages)]. *)
Definition loop_body (cfg : config) (font_bubble : Font)
  (reversed_messages : list turn) (i : Z) (msg : turn) (st : state)
  : result state :=
  let '(role, txt) := msg in
  let img_width := fst (image_size cfg) in
  let lines := wrap_text txt font_bubble (max_text_width_of img_width) in
  tb <- text_block font_bubble lines ;;
  let '(text_block_width, text_block_height, line_height) := tb in
  let bubble_width := text_block_width + 2 * bubble_padding in
  let bubble_height := text_block_height + 2 * bubble_padding in
  let bubble_bottom := current_y st in
  let bubble_top := bubble_bottom - bubble_height in
  let '(bubble_left, bubble_right, bubble_color, outline_color) :=
    if str_eqb role (u "sender") then
      let bubble_left := left_margin cfg in
      (bubble_left, bubble_left + bubble_width, (255, 255, 255), (230, 230, 230))
    else
      let bubble_right := img_width - right_margin cfg in
      (bubble_right - bubble_width, bubble_right, (240, 240, 240), (255, 255, 255)) in
  let coords := (bubble_left, bubble_top, bubble_right, bubble_bottom) in
  let bubble := draw_chat_bubble coords corner_radius bubble_color outline_color in
  let text_x := bubble_left + bubble_padding in
  let text_y := bubble_top + bubble_padding / 2 in
  let texts := draw_lines font_bubble text_x text_y line_height (len lines) 0 lines in
  let bottom_box := if i =? 0 then Some coords else bottom_bubble_box st in
  let top_box := if i =? len reversed_messages - 1 then Some coords
                 else top_bubble_box st in
  next_y <-
    (if i <? len reversed_messages - 1 then
       next <- py_index reversed_messages (i + 1) ;;
       let '(next_role, _) := next in
       if str_eqb next_role role then Ok (bubble_top - same_person_margin cfg)
       else Ok (bubble_top - bubble_margin cfg)
     else Ok (bubble_top - bubble_margin cfg)) ;;
  Ok {| current_y := next_y;
        bottom_bubble_box := bottom_box;
        top_bubble_box := top_box;
        drawn := drawn st ++ bubble :: texts |}.

Fixpoint for_enumerate (cfg : config) (font_bubble : Font)
  (reversed_messages : list turn) (i : Z) (items : list turn) (st : state)
  : result state :=
  match items with
  | [] => Ok st
  | msg :: rest =>
      st' <- loop_body cfg font_bubble reversed_messages i msg st ;;
      for_enumerate cfg font_bubble reversed_messages (i + 1) rest st'
  end.

Definition demo_messages : list turn :=
  [ (u "sender", u "Hello!");
    (u "receiver", u "Just letting you know the codes are working fine.");
    (u "receiver",
      u "This message is intentionally longer, ensuring multiple lines for a nice demonstration of wrapping.") ].

Definition gray : color := (128, 128, 128).

(** [generate_chat_image]: [rand_hour] and [rand_minute] are the two values
    drawn by [generate_random_timestamp]; the result is the file written
    and the image saved in it. *)
Definition generate_chat_image (messages : option (list turn)) (cfg : config)
  (rand_hour rand_minute : Z) : result (pystr * image) :=
  let messages := match messages with
                  | None => demo_messages
                  | Some m => m
                  end in
  let '(img_width, img_height) := image_size cfg in
  let background := (255, 255, 255) in
  let '(font_bubble, font_time) :=
    load_ios_fonts (bubble_font_size cfg) (time_font_size cfg) in
  let time_text := generate_random_timestamp rand_hour rand_minute in
  let st0 := {| current_y := img_height - bottom_padding cfg;
                bottom_bubble_box := None;
                top_bubble_box := None;
                drawn := [] |} in
  let reversed_messages := rev messages in
  st <- for_enumerate cfg font_bubble reversed_messages 0 reversed_messages st0 ;;
  seen <-
    match bottom_bubble_box st with
    | Some (l, t, r, b) =>
        newest <- py_index messages (-1) ;;
        let '(newest_role, _) := newest in
        if str_eqb newest_role (u "receiver") then
          let seen_text := u "Seen just now" in
          let '(seen_width, _) := measure_text seen_text font_time in
          let seen_x := r - seen_width in
          let seen_y := b + 10 in
          Ok [text (seen_x, seen_y) seen_text gray font_time]
        else Ok []
    | None => Ok []
    end ;;
  let stamp :=
    match top_bubble_box st with
    | Some (l, t, r, b) =>
        let '(time_width, time_height) := measure_text time_text font_time in
        let time_x := img_width / 2 - time_width / 2 in
        let time_y := t - time_height - 50 in
        [text (time_x, time_y) time_text gray font_time]
    | None => []
    end in
  Ok (output_file cfg,
      {| img_size := (img_width, img_height);
         img_background := background;
         img_ops := drawn st ++ seen ++ stamp |}).

(** The rectangles of the bubbles, in the order drawn (newest first). *)
Definition bubble_boxes (img : image) : list box :=
  flat_map (fun op => match op with
                      | rounded_rectangle b _ _ _ _ => [b]
                      | text _ _ _ _ => []
                      end) (img_ops img).

(** *** The layout in closed form

    The geometry the loop computes, written as functions of the cursor;
    they are related to the loop in the properties below. *)

Definition block_dims (font_bubble : Font) (lines : list pystr) : Z * Z * Z :=
  match lines with
  | [] => (0, 0, snd (measure_text (u "Test") font_bubble))
  | first :: rest =>
      (fold_left Z.max
         (map (fun line => fst (measure_text line font_bubble)) rest)
         (fst (measure_text first font_bubble)),
       py_sum (map (fun line => snd (measure_text line font_bubble)) lines)
       + line_spacing * (len lines - 1),
       snd (measure_text first font_bubble))
  end.

Definition bubble_coords (cfg : config) (font_bubble : Font) (msg : turn)
  (y : Z) : box :=
  let img_width := fst (image_size cfg) in
  let lines := wrap_text (snd msg) font_bubble (max_text_width_of img_width) in
  let '(tw, th, _) := block_dims font_bubble lines in
  let bubble_width := tw + 2 * bubble_padding in
  let bubble_height := th + 2 * bubble_padding in
  if str_eqb (fst msg) (u "sender") then
    (left_margin cfg, y - bubble_height, left_margin cfg + bubble_width, y)
  else
    (img_width - right_margin cfg - bubble_width, y - bubble_height,
     img_width - right_margin cfg, y).

Definition bubble_ops (cfg : config) (font_bubble : Font) (msg : turn)
  (y : Z) : list draw_op :=
  let img_width := fst (image_size cfg) in
  let lines := wrap_text (snd msg) font_bubble (max_text_width_of img_width) in
  let '(_, _, line_height) := block_dims font_bubble lines in
  let coords := bubble_coords cfg font_bubble msg y in
  let '(bubble_color, outline_color) :=
    if str_eqb (fst msg) (u "sender")
    then ((255, 255, 255), (230, 230, 230))
    else ((240, 240, 240), (255, 255, 255)) in
  draw_chat_bubble coords corner_radius bubble_color outline_color
  :: draw_lines font_bubble (box_left coords + bubble_padding)
       (box_top coords + bubble_padding / 2) line_height (len lines) 0 lines.

(** The gap left above the bubble of a turn of [role], [rest] being the
    turns still to place. *)
Definition gap_above (cfg : config) (role : pystr) (rest : list turn) : Z :=
  match rest with
  | (next_role, _) :: _ =>
      if str_eqb next_role role then same_person_margin cfg else bubble_margin cfg
  | [] => bubble_margin cfg
  end.

Fixpoint layout_boxes (cfg : config) (font_bubble : Font) (y : Z)
  (items : list turn) : list box :=
  match items with
  | [] => []
  | msg :: rest =>
      let coords := bubble_coords cfg font_bubble msg y in
      coords :: layout_boxes cfg font_bubble
                  (box_top coords - gap_above cfg (fst msg) rest) rest
  end.

Fixpoint layout_ops (cfg : config) (font_bubble : Font) (y : Z)
  (items : list turn) : list draw_op :=
  match items with
  | [] => []
  | msg :: rest =>
      let coords := bubble_coords cfg font_bubble msg y in
      bubble_ops cfg font_bubble msg y
      ++ layout_ops cfg font_bubble
           (box_top coords - gap_above cfg (fst msg) rest) rest
  end.

(** The "seen" label and the time label, from the boxes of the newest and
    of the oldest bubble. *)
Definition seen_ops (cfg : config) (font_bubble font_time : Font)
  (messages : list turn) : list draw_op :=
  match rev messages with
  | [] => []
  | newest :: _ =>
      if str_eqb (fst newest) (u "receiver") then
        let b := bubble_coords cfg font_bubble newest
                   (snd (image_size cfg) - bottom_padding cfg) in
        [text (box_right b - fst (measure_text (u "Seen just now") font_time),
               box_bottom b + 10)
              (u "Seen just now") gray font_time]
      else []
  end.

Definition stamp_ops (cfg : config) (font_bubble font_time : Font)
  (messages : list turn) (time_text : pystr) : list draw_op :=
  match last (map Some (layout_boxes cfg font_bubble
                          (snd (image_size cfg) - bottom_padding cfg)
                          (rev messages))) None with
  | Some b =>
      [text (fst (image_size cfg) / 2 - fst (measure_text time_text font_time) / 2,
             box_top b - snd (measure_text time_text font_time) - 50)
            time_text gray font_time]
  | None => []
  end.

End Render.

Arguments rounded_rectangle {Font}.
Arguments text {Font}.
Arguments img_size {Font}.
Arguments img_background {Font}.
Arguments img_ops {Font}.
Arguments bubble_boxes {Font}.
Arguments current_y {Font}.
Arguments bottom_bubble_box {Font}.
Arguments top_bubble_box {Font}.
Arguments drawn {Font}.

End Simulator.

(** ** chat_simulator.py: the fonts *)

Module Fonts.

Definition possible_sf_fonts : list pystr :=
  [ u "fonts/sf-pro-text-regular.ttf";
    u "fonts/SFUIText-Regular.ttf";
    u "fonts/SanFrancisco.ttf" ].

Definition helvetica_names : list pystr :=
  [ u "fonts/Helvetica.ttf"; u "fonts/HelveticaNeue.ttf" ].

Definition warning : pystr :=
  u "Warning: SF/Helvetica not found. Using default font.".

Section Load.

Variable Font : Type.

(** [os.path.isfile] *)
Variable isfile : pystr -> bool.

(** [ImageFont.truetype(path, size)]: [None] when it raises [IOError]. *)
Variable truetype : pystr -> Z -> option Font.

(** [ImageFont.load_default()] *)
Variable load_default : Font.

(** The first loop: the first candidate that is a file, the search ending
    there. *)
Fixpoint find_sf (candidates : list pystr) : option pystr :=
  match candidates with
  | [] => None
  | sf_font :: rest => if isfile sf_font then Some sf_font else find_sf rest
  end.

(** The body of a [try]: both fonts from one file, or [None] when either
    load raises [IOError]. *)
Definition try_load (path_bubble path_time : pystr) (font_size time_size : Z)
  : option (Font * Font) :=
  match truetype path_bubble font_size with
  | Some font_bubble =>
      match truetype path_time time_size with
      | Some font_time => Some (font_bubble, font_time)
      | None => None
      end
  | None => None
  end.

(** The loop over the Helvetica names: each file present is tried. *)
Fixpoint try_helvetica (names : list pystr) (font_size time_size : Z)
  : option (Font * Font) :=
  match names with
  | [] => None
  | helv_font :: rest =>
      if isfile helv_font then
        match try_load helv_font helv_font font_size time_size with
        | Some fonts => Some fonts
        | None => try_helvetica rest font_size time_size
        end
      else try_helvetica rest font_size time_size
  end.

(** [load_ios_fonts]: the pair of fonts and the lines printed. *)
Definition load_ios_fonts (font_size time_size : Z)
  : (Font * Font) * list pystr :=
  let sf :=
    match find_sf possible_sf_fonts with
    | Some path => try_load path path font_size time_size
    | None => None
    end in
  match sf with
  | Some fonts => (fonts, [])
  | None =>
      match try_helvetica helvetica_names font_size time_size with
      | Some fonts => (fonts, [])
      | None => ((load_default, load_default), [warning])
      end
  end.

End Load.

End Fonts.

(** ** chat_parser.py: [main] and the command line *)

Module Cli.

(** [os.path.join(a, b)] on a POSIX system. *)
Definition path_join (a b : pystr) : pystr :=
  if startswith b (u "/") then b
  else if negb (str_nonempty a) || str_eqb (skipn (length a - 1) a) (u "/")
       then a ++ b
       else a ++ u "/" ++ b.

(** The keyword arguments [main] passes to [generate_chat_image]. *)
Definition main_config (output_file : pystr) : Simulator.config := {|
  Simulator.output_file := output_file;
  Simulator.image_size := (1290, 1290);
  Simulator.bubble_font_size := 40;
  Simulator.time_font_size := 34;
  Simulator.bottom_padding := 280;
  Simulator.left_margin := 190;
  Simulator.right_margin := 40;
  Simulator.bubble_margin := 22;
  Simulator.same_person_margin := 2
|}.

(** [f"conversation_{i}.png"] *)
Definition conversation_name (i : Z) : pystr :=
  u "conversation_" ++ Simulator.str_of_int i ++ u ".png".

Inductive failure : Type :=
| FileNotFound                          (* [open] raised *)
| Uncaught (e : Simulator.exn).         (* an exception of the rendering *)

Inductive outcome : Type :=
| Done
| Exit (code : Z)
| Failed (f : failure).

Section Main.

Variable Font : Type.
Variable load_ios_fonts : Z -> Z -> Font * Font.
Variable textbbox : pystr -> Font -> Z * Z * Z * Z.
Variable max_text_width_of : Z -> Z.

(** [open(file_path, 'r', encoding='utf-8')] and the reading of the file:
    the decoded content, or [None] when the file cannot be opened or
    decoded. *)
Variable read_file : pystr -> option pystr.

(** The two values drawn by the call of [generate_chat_image] for the
    conversation of a given ordinal. *)
Variable draws : Z -> Z * Z.

(** What a run leaves behind: the directories made, the images saved (the
    console output is left out), and how the run ends. *)
Record run : Type := {
  made_dirs : list pystr;
  saved : list (pystr * Simulator.image Font);
  ending : outcome
}.

(** The loop over [enumerate(conversations, start=1)]. *)
Fixpoint render_all (output_dir : pystr) (i : Z)
  (conversations : list Parser.conversation)
  : list (pystr * Simulator.image Font) * outcome :=
  match conversations with
  | [] => ([], Done)
  | convo :: rest =>
      let output_file := path_join output_dir (conversation_name i) in
      match Simulator.generate_chat_image Font load_ios_fonts textbbox
              max_text_width_of (Some convo) (main_config output_file)
              (fst (draws i)) (snd (draws i)) with
      | Simulator.Ok file =>
          let '(files, e) := render_all output_dir (i + 1) rest in
          (file :: files, e)
      | Simulator.Raise e => ([], Failed (Uncaught e))
      end
  end.

(** [main(input_file)]; [cwd] is [os.getcwd()] and [timestamp] the
    formatted [datetime.datetime.now()]. *)
Definition main (cwd timestamp input_file : pystr) : run :=
  match read_file input_file with
  | None => {| made_dirs := []; saved := []; ending := Failed FileNotFound |}
  | Some content =>
      let conversations := Parser.parse_conversations content in
      let content_dir := path_join cwd (u "content") in
      let output_dir := path_join content_dir timestamp in
      let '(files, e) := render_all output_dir 1 conversations in
      {| made_dirs := [content_dir; output_dir]; saved := files; ending := e |}
  end.

(** The script: [argv] is [sys.argv]. *)
Definition script (cwd timestamp : pystr) (argv : list pystr) : run :=
  if Simulator.len argv <? 2 then
    {| made_dirs := []; saved := []; ending := Exit 1 |}
  else
    match Simulator.py_index argv 1 with
    | Simulator.Ok input_file => main cwd timestamp input_file
    | Simulator.Raise e =>
        {| made_dirs := []; saved := []; ending := Failed (Uncaught e) |}
    end.

End Main.

Arguments made_dirs {Font}.
Arguments saved {Font}.
Arguments ending {Font}.

End Cli.

(** ** Auxiliary definitions of the properties *)

(** The lines so far, the line in progress included. *)
Definition pending (lines : list pystr) (current_line : pystr) : list pystr :=
  if str_nonempty current_line then lines ++ [current_line] else lines.

(** The measured width of a line. *)
Definition line_width {Font : Type} (textbbox : pystr -> Font -> Z * Z * Z * Z)
  (font : Font) (line : pystr) : Z :=
  fst (Simulator.measure_text Font textbbox line font).

(** A line fits, or it is one of the words, wider than the budget. *)
Definition line_ok {Font : Type} (textbbox : pystr -> Font -> Z * Z * Z * Z)
  (font : Font) (max_width : Z) (words : list pystr) (line : pystr) : Prop :=
  line_width textbbox font line <= max_width
  \/ (In line words /\ max_width < line_width textbbox font line).

(** The two fonts of a call and the cursor it starts from. *)
Definition fonts (Font : Type) (load_ios_fonts : Z -> Z -> Font * Font)
  (cfg : Simulator.config) : Font * Font :=
  load_ios_fonts (Simulator.bubble_font_size cfg) (Simulator.time_font_size cfg).

Definition start_y (cfg : Simulator.config) : Z :=
  snd (Simulator.image_size cfg) - Simulator.bottom_padding cfg.

(** A value below 100 written with two digits. *)
Definition two_digits (n : Z) : pystr :=
  [Z.to_N (48 + n / 10); Z.to_N (48 + n mod 10)].

(** The rectangles among drawing operations. *)
Definition rects {Font : Type} (ops : list (Simulator.draw_op Font))
  : list Simulator.box :=
  flat_map (fun op => match op with
                      | Simulator.rounded_rectangle b _ _ _ _ => [b]
                      | Simulator.text _ _ _ _ => []
                      end) ops.

(** A text drawn in black, or a rectangle: what a bubble is made of. *)
Definition bubble_part {Font : Type} (op : Simulator.draw_op Font) : Prop :=
  match op with
  | Simulator.rounded_rectangle _ _ _ _ _ => True
  | Simulator.text _ _ fill _ => fill = (0, 0, 0)
  end.

(** The turn a line contributes, if any. *)
Definition turns_of_line (line : pystr) : list Parser.turn :=
  match Parser.classify line with
  | Some t => [t]
  | None => []
  end.



(** A line that is not empty and is its words joined by single spaces. *)
Definition tidy (line : pystr) : Prop :=
  line <> [] /\ join_space (split line) = line.

(** The break between two lines is forced: the first word of the second
    line, put after the first line, measures more than the budget. *)
Definition forced_break {Font : Type} (textbbox : pystr -> Font -> Z * Z * Z * Z)
  (font : Font) (max_width : Z) (a b : pystr) : Prop :=
  exists w, hd_error (split b) = Some w
            /\ max_width < line_width textbbox font (a ++ space ++ w).

(** Every break of a list of lines is forced. *)
Fixpoint breaks_forced {Font : Type} (textbbox : pystr -> Font -> Z * Z * Z * Z)
  (font : Font) (max_width : Z) (lines : list pystr) : Prop :=
  match lines with
  | a :: (b :: _) as rest =>
      forced_break textbbox font max_width a b
      /\ breaks_forced textbbox font max_width rest
  | _ => True
  end.

Definition color_eqb (a b : Simulator.color) : bool :=
  let '(r1, g1, b1) := a in
  let '(r2, g2, b2) := b in
  (r1 =? r2) && (g1 =? g2) && (b1 =? b2).

(** The strings drawn in a given colour, in the order drawn. *)
Definition drawn_texts {Font : Type} (fill : Simulator.color)
  (ops : list (Simulator.draw_op Font)) : list pystr :=
  flat_map (fun op => match op with
                      | Simulator.text _ s f _ => if color_eqb f fill then [s] else []
                      | Simulator.rounded_rectangle _ _ _ _ _ => []
                      end) ops.

Definition black : Simulator.color := (0, 0, 0).

(** A directory as a prefix of the paths of its files. *)
Definition dir_prefix (dir : pystr) : pystr :=
  if negb (str_nonempty dir) || str_eqb (skipn (length dir - 1) dir) (u "/")
  then dir else dir ++ u "/".

(** The ordinals 1, ..., n. *)
Definition ordinals (n : nat) : list Z := map Z.of_nat (seq 1 n).

(** The file system with the San Francisco candidates taken away. *)
Definition without_sf (isfile : pystr -> bool) (path : pystr) : bool :=
  isfile path && negb (existsb (str_eqb path) Fonts.possible_sf_fonts).

(** ** A concrete rendering back end for examples

    A fixed-pitch font: ten pixels a character, twenty pixels high. *)
Module Mono.

Definition Font : Type := bool.
Definition load_ios_fonts (font_size time_size : Z) : Font * Font := (true, false).
Definition textbbox (s : pystr) (f : Font) : Z * Z * Z * Z :=
  (0, 0, 10 * Z.of_nat (length s), 20).
Definition max_text_width_of (w : Z) : Z := w * 65 / 100 - 64.

Definition generate_chat_image :=
  Simulator.generate_chat_image Font load_ios_fonts textbbox max_text_width_of.
Definition measure_text := Simulator.measure_text Font textbbox.

End Mono.

Definition nl : pystr := [10%N].

Definition sample_transcript : pystr :=
  u "A: hi" ++ nl ++ u "B: yo" ++ nl ++ nl ++ u "A: bye" ++ nl.

Definition indented_transcript : pystr :=
  u "A: hi" ++ nl ++ u "  B: yo" ++ nl.

(** A conversation whose only message is blank. *)
Definition blank_conversation : list Simulator.turn := [(u "sender", u " ")].


(** ** A small file system for examples *)
Module Demo.

(** One transcript, under the name "chat.txt". *)
Definition read_file (path : pystr) : option pystr :=
  if str_eqb path (u "chat.txt") then Some sample_transcript else None.

Definition draws (i : Z) : Z * Z := (7, 5).

(** Fonts named by their file and size. *)
Definition Font : Type := option (pystr * Z).

(** Two San Francisco files, the first of which does not load. *)
Definition isfile_sf (path : pystr) : bool :=
  str_eqb path (u "fonts/sf-pro-text-regular.ttf")
  || str_eqb path (u "fonts/SanFrancisco.ttf").

Definition truetype (path : pystr) (size : Z) : option Font :=
  if str_eqb path (u "fonts/sf-pro-text-regular.ttf") then None
  else Some (Some (path, size)).

(** One Helvetica file. *)
Definition isfile_helvetica (path : pystr) : bool :=
  str_eqb path (u "fonts/HelveticaNeue.ttf").

End Demo.

(** * Properties *)

(** ** The segmenter *)

Section ParserFacts.
Import Parser.

Lemma parse_lines_finish (lines : list pystr) :
  parse_lines lines = finish (parse_loop lines ([], [])).
Proof. reflexivity. Qed.

Lemma parse_line_classify (line : pystr) (convs : list conversation)
  (cur : conversation) :
  parse_line line (convs, cur) =
  match classify line with
  | Some t => (convs, cur ++ [t])
  | None => (finish (convs, cur), [])
  end.
Proof.
  unfold parse_line, classify, finish.
  destruct (startswith (strip line) (u "A: ")); [reflexivity|].
  destruct (startswith (strip line) (u "B: ")); [reflexivity|].
  destruct cur; reflexivity.
Qed.

Lemma parse_loop_segment (lines : list pystr) :
  forall convs cur,
    finish (parse_loop lines (convs, cur)) = convs ++ segment classify cur lines.
Proof.
  induction lines as [|line rest IH]; intros convs cur.
  - simpl. destruct cur; [now rewrite app_nil_r | reflexivity].
  - cbn [parse_loop segment]. rewrite parse_line_classify.
    destruct (classify line) as [t|].
    + apply IH.
    + rewrite IH. destruct cur as [|t0 cur']; cbn [finish].
      * reflexivity.
      * now rewrite <- app_assoc.
Qed.

Lemma segment_nonempty (cl : pystr -> option turn) (lines : list pystr) :
  forall cur, Forall (fun c => c <> []) (segment cl cur lines).
Proof.
  induction lines as [|line rest IH]; intros cur; cbn [segment].
  - destruct cur; constructor; [discriminate | constructor].
  - destruct (cl line).
    + apply IH.
    + destruct cur; [apply IH | constructor; [discriminate | apply IH]].
Qed.

End ParserFacts.

(** C2 (as amended): the segmenter classifies each line by the prefix of
    the line once its surrounding whitespace is stripped: a stripped line
    that starts with "A: " is a sender turn and one that starts with "B: "
    a receiver turn, the text being the trimmed remainder; any other line
    is a delimiter.  With that classification the result is the
    segmentation of the specification: delimiters close the non-empty
    conversation in progress, the conversation in progress at the end of
    the input is emitted, and no emitted conversation is empty.  The
    sample transcript yields its two conversations. *)
Theorem parse_conversations_segments :
  (forall line,
      Parser.classify line =
      if startswith (strip line) (u "A: ")
      then Some (u "sender", strip (skipn 3 (strip line)))
      else if startswith (strip line) (u "B: ")
           then Some (u "receiver", strip (skipn 3 (strip line)))
           else None)
  /\ (forall content,
         Parser.parse_conversations content =
         Parser.segment Parser.classify [] (readlines content))
  /\ (forall content,
         Forall (fun c => c <> []) (Parser.parse_conversations content))
  /\ Parser.parse_conversations sample_transcript =
     [ [ (u "sender", u "hi"); (u "receiver", u "yo") ];
       [ (u "sender", u "bye") ] ].
Proof.
  assert (Hseg : forall content,
             Parser.parse_conversations content =
             Parser.segment Parser.classify [] (readlines content)).
  { intros content. unfold Parser.parse_conversations.
    rewrite parse_lines_finish, parse_loop_segment. reflexivity. }
  split; [intros line; reflexivity|].
  split; [exact Hseg|].
  split; [|vm_compute; reflexivity].
  intros content. rewrite Hseg. apply segment_nonempty.
Qed.

(** C2 (as stated) fails: an indented line does not start with "A: " or
    "B: ", yet the code reads it as a turn where the stated rule makes it a
    delimiter. *)
Lemma parse_conversations_indented_line :
  startswith (u "  B: yo" ++ nl) (u "A: ") = false
  /\ startswith (u "  B: yo" ++ nl) (u "B: ") = false
  /\ Parser.parse_conversations indented_transcript =
     [ [ (u "sender", u "hi"); (u "receiver", u "yo") ] ]
  /\ Parser.spec_segmenter indented_transcript = [ [ (u "sender", u "hi") ] ]
  /\ Parser.parse_conversations indented_transcript
     <> Parser.spec_segmenter indented_transcript.
Proof.
  split; [vm_compute; reflexivity|].
  split; [vm_compute; reflexivity|].
  split; [vm_compute; reflexivity|].
  split; [vm_compute; reflexivity|].
  vm_compute. discriminate.
Qed.

(** ** [str.split] and [" ".join] *)

Lemma str_nonempty_rev (s : pystr) : str_nonempty (rev s) = str_nonempty s.
Proof.
  destruct s as [|c s]; [reflexivity|].
  simpl. destruct (rev s); reflexivity.
Qed.

Lemma split_aux_app_space (a : pystr) :
  forall cur c b,
    isspace c = true ->
    split_aux cur (a ++ c :: b) = split_aux cur a ++ split_aux [] b.
Proof.
  induction a as [|x a IH]; intros cur c b Hc; simpl.
  - rewrite Hc. destruct (str_nonempty cur); reflexivity.
  - destruct (isspace x).
    + destruct (str_nonempty cur); simpl; now rewrite IH.
    + now apply IH.
Qed.

Lemma split_aux_word (w : pystr) :
  forall cur,
    Forall (fun c => isspace c = false) w ->
    split_aux cur w = if str_nonempty (rev cur ++ w) then [rev cur ++ w] else [].
Proof.
  induction w as [|c w IH]; intros cur Hw; simpl.
  - rewrite app_nil_r, str_nonempty_rev. reflexivity.
  - inversion Hw as [|? ? Hc Hw']; subst. rewrite Hc, IH by assumption.
    simpl. rewrite <- app_assoc. reflexivity.
Qed.

Lemma split_word (w : pystr) : word_ok w -> split w = [w].
Proof.
  intros [Hne Hw]. unfold split. rewrite split_aux_word by assumption.
  simpl. destruct w; [contradiction | reflexivity].
Qed.

Lemma split_aux_words_ok (s : pystr) :
  forall cur,
    Forall (fun c => isspace c = false) cur ->
    Forall word_ok (split_aux cur s).
Proof.
  assert (Hrev : forall cur, str_nonempty cur = true ->
                   Forall (fun c => isspace c = false) cur -> word_ok (rev cur)).
  { intros cur Hne Hcur. split.
    - intros E. rewrite <- str_nonempty_rev, E in Hne. discriminate.
    - now apply Forall_rev. }
  induction s as [|c s IH]; intros cur Hcur; simpl.
  - destruct (str_nonempty cur) eqn:E; constructor; auto.
  - destruct (isspace c) eqn:Ec.
    + destruct (str_nonempty cur) eqn:E; [constructor; auto|]; apply IH; constructor.
    + apply IH. now constructor.
Qed.

Lemma split_words_ok (s : pystr) : Forall word_ok (split s).
Proof. apply split_aux_words_ok. constructor. Qed.

Lemma split_app_space (a b : pystr) :
  split (a ++ space ++ b) = split a ++ split b.
Proof. unfold split, space. simpl. now apply split_aux_app_space. Qed.

Lemma split_join_space (parts : list pystr) :
  split (join_space parts) = concat (map split parts).
Proof.
  induction parts as [|p rest IH]; [reflexivity|].
  destruct rest as [|q rest].
  - simpl. now rewrite app_nil_r.
  - change (join_space (p :: q :: rest)) with (p ++ space ++ join_space (q :: rest)).
    rewrite split_app_space, IH. reflexivity.
Qed.

(** ** The text wrapper *)

Section WrapFacts.
Import Simulator.

Variable Font : Type.
Variable textbbox : pystr -> Font -> Z * Z * Z * Z.
Variable font : Font.
Variable max_width : Z.

Local Notation "'wrap_loop'" := (Simulator.wrap_loop Font textbbox font max_width).

Lemma wrap_text_pending (s : pystr) :
  Simulator.wrap_text Font textbbox s font max_width = let '(lines, cur) := wrap_loop (split s) [] [] in pending lines cur.
Proof. reflexivity. Qed.

Lemma concat_split_pending (lines : list pystr) (cur : pystr) (w : pystr) :
  word_ok w ->
  concat (map split (pending lines
                       (cur ++ (if str_nonempty cur then space else []) ++ w)))
  = concat (map split (pending lines cur)) ++ [w].
Proof.
  intros Hw. pose proof (split_word w Hw) as Hs. destruct Hw as [Hne _].
  unfold pending. destruct cur as [|c cur]; cbn [str_nonempty app].
  - destruct w as [|x w]; [contradiction|]. cbn [str_nonempty].
    rewrite map_app, concat_app. cbn [map concat]. now rewrite Hs.
  - rewrite !map_app, !concat_app. cbn [map concat].
    change (c :: cur ++ space ++ w) with ((c :: cur) ++ space ++ w).
    rewrite split_app_space, Hs, !app_nil_r. now rewrite <- app_assoc.
Qed.

(** The words of the lines produced are the words given, in order. *)
Lemma wrap_loop_words (words : list pystr) :
  forall lines cur,
    Forall word_ok words ->
    (let '(lines', cur') := wrap_loop words lines cur in
     concat (map split (pending lines' cur')))
    = concat (map split (pending lines cur)) ++ words.
Proof.
  induction words as [|w rest IH]; intros lines cur Hws.
  - simpl. now rewrite app_nil_r.
  - inversion Hws as [|? ? Hw Hrest]; subst.
    cbn [Simulator.wrap_loop].
    destruct (measure_text Font textbbox
                (cur ++ (if str_nonempty cur then space else []) ++ w) font)
      as [wd ht].
    destruct (wd <=? max_width).
    + rewrite IH by assumption. rewrite concat_split_pending by assumption.
      rewrite <- app_assoc. reflexivity.
    + rewrite IH by assumption. fold (pending lines cur).
      change (w :: rest) with ([w] ++ rest). rewrite app_assoc. f_equal.
      pose proof (split_word w Hw) as Hs. destruct Hw as [Hne Hw].
      unfold pending at 1. destruct w; [contradiction|]. cbn [str_nonempty].
      rewrite map_app, concat_app. cbn [map concat]. rewrite Hs. reflexivity.
Qed.

Lemma wrap_text_words (s : pystr) :
  concat (map split (Simulator.wrap_text Font textbbox s font max_width)) = split s.
Proof.
  rewrite wrap_text_pending.
  pose proof (wrap_loop_words (split s) [] [] (split_words_ok s)) as H.
  destruct (wrap_loop (split s) [] []) as [lines cur]. exact H.
Qed.

Lemma wrap_loop_fits (all : list pystr) (words : list pystr) :
  forall lines cur,
    incl words all ->
    Forall (line_ok textbbox font max_width all) lines ->
    cur = [] \/ line_ok textbbox font max_width all cur ->
    let '(lines', cur') := wrap_loop words lines cur in
    Forall (line_ok textbbox font max_width all) lines'
    /\ (cur' = [] \/ line_ok textbbox font max_width all cur').
Proof.
  induction words as [|w rest IH]; intros lines cur Hincl Hlines Hcur.
  - simpl. auto.
  - cbn [Simulator.wrap_loop].
    assert (Hrest : incl rest all) by (intros x Hx; apply Hincl; now right).
    assert (Hw : In w all) by (apply Hincl; now left).
    destruct (measure_text Font textbbox
                (cur ++ (if str_nonempty cur then space else []) ++ w) font)
      as [wd ht] eqn:Em.
    destruct (wd <=? max_width) eqn:Ele.
    + apply IH; auto. right. left. unfold line_width. rewrite Em. simpl. lia.
    + apply IH; auto.
      * destruct cur as [|c cur]; cbn [str_nonempty]; [assumption|].
        apply Forall_app. split; [assumption|]. constructor; [|constructor].
        destruct Hcur as [Hcur|Hcur]; [discriminate | assumption].
      * right. unfold line_ok.
        destruct (Z_le_gt_dec (line_width textbbox font w) max_width);
          [now left | right; split; [assumption | lia]].
Qed.

End WrapFacts.


(** C6: wrapping is idempotent: the lines of a wrapped text, joined with
    single spaces and wrapped again with the same font and width, come back
    unchanged. *)
Theorem wrap_text_idempotent (Font : Type)
  (textbbox : pystr -> Font -> Z * Z * Z * Z) (font : Font)
  (s : pystr) (max_width : Z) :
  Simulator.wrap_text Font textbbox
    (join_space (Simulator.wrap_text Font textbbox s font max_width))
    font max_width
  = Simulator.wrap_text Font textbbox s font max_width.
Proof.
  unfold Simulator.wrap_text at 1.
  rewrite split_join_space, wrap_text_words. reflexivity.
Qed.

(** ** The loop of [generate_chat_image] *)

Lemma str_eqb_eq (a b : pystr) : str_eqb a b = true <-> a = b.
Proof.
  revert b. induction a as [|x a IH]; intros [|y b]; simpl;
    try (split; [discriminate | discriminate]); [tauto|].
  rewrite andb_true_iff, N.eqb_eq, IH. split.
  - intros [-> ->]. reflexivity.
  - intros E. inversion E. auto.
Qed.

Lemma str_eqb_refl (a : pystr) : str_eqb a a = true.
Proof. now apply str_eqb_eq. Qed.

Section IndexFacts.
Import Simulator.
Context {A : Type}.

Lemma len_app (l1 l2 : list A) : len (l1 ++ l2) = len l1 + len l2.
Proof. unfold len. rewrite length_app. lia. Qed.

Lemma len_cons (x : A) (l : list A) : len (x :: l) = 1 + len l.
Proof. unfold len. simpl length. lia. Qed.

Lemma len_nonneg (l : list A) : 0 <= len l.
Proof. unfold len. lia. Qed.

(** An index inside the list finds its element. *)
Lemma py_index_app (pre : list A) (x : A) (post : list A) :
  py_index (pre ++ x :: post) (len pre) = Ok x.
Proof.
  unfold py_index. fold (len (pre ++ x :: post)). cbv zeta.
  rewrite len_app, len_cons.
  pose proof (len_nonneg pre). pose proof (len_nonneg post).
  assert (F1 : (len pre <? 0) = false) by (apply Z.ltb_ge; lia).
  assert (F2 : (len pre + (1 + len post) <=? len pre) = false)
    by (apply Z.leb_gt; lia).
  rewrite !F1, F2. cbn [orb].
  unfold len. rewrite Nat2Z.id, nth_error_app2 by lia.
  rewrite Nat.sub_diag. reflexivity.
Qed.

(** [l[-1]] is the last element of a non-empty list. *)
Lemma py_index_last (pre : list A) (x : A) :
  py_index (pre ++ [x]) (-1) = Ok x.
Proof.
  unfold py_index. fold (len (pre ++ [x])). cbv zeta.
  rewrite len_app, len_cons. change (len (@nil A)) with 0.
  pose proof (len_nonneg pre).
  change (-1 <? 0) with true. cbv iota.
  replace (-1 + (len pre + (1 + 0))) with (len pre) by lia.
  assert (F1 : (len pre <? 0) = false) by (apply Z.ltb_ge; lia).
  assert (F2 : (len pre + (1 + 0) <=? len pre) = false)
    by (apply Z.leb_gt; lia).
  rewrite F1, F2. cbn [orb].
  unfold len. rewrite Nat2Z.id, nth_error_app2 by lia.
  rewrite Nat.sub_diag. reflexivity.
Qed.

End IndexFacts.

Section LayoutFacts.
Import Simulator.

Variable Font : Type.
Variable load_ios_fonts : Z -> Z -> Font * Font.
Variable textbbox : pystr -> Font -> Z * Z * Z * Z.
Variable max_text_width_of : Z -> Z.
Variable cfg : config.
Variable font_bubble : Font.

Local Notation "'coords_of'" :=
  (bubble_coords Font textbbox max_text_width_of cfg font_bubble).
Local Notation "'ops_of'" :=
  (bubble_ops Font textbbox max_text_width_of cfg font_bubble).
Local Notation "'boxes_from'" :=
  (layout_boxes Font textbbox max_text_width_of cfg font_bubble).
Local Notation "'ops_from'" :=
  (layout_ops Font textbbox max_text_width_of cfg font_bubble).

(** The guard [if lines] keeps [max] and [line_heights[0]] from raising. *)
Lemma text_block_eq (lines : list pystr) :
  text_block Font textbbox font_bubble lines
  = Ok (block_dims Font textbbox font_bubble lines).
Proof.
  destruct lines as [|first rest]; [reflexivity|].
  unfold text_block, block_dims. cbn [map py_max bind].
  change (py_index (?x :: ?l) 0) with (py_index ([] ++ x :: l) (len (@nil Z))).
  rewrite py_index_app. reflexivity.
Qed.

Lemma loop_body_eq (pre : list turn) (msg : turn) (rest : list turn) (st : state Font) :
  loop_body Font textbbox max_text_width_of cfg font_bubble
    (pre ++ msg :: rest) (len pre) msg st
  = Ok {| current_y := box_top (coords_of msg (current_y st))
                       - gap_above cfg (fst msg) rest;
          bottom_bubble_box := match pre with
                               | [] => Some (coords_of msg (current_y st))
                               | _ :: _ => bottom_bubble_box st
                               end;
          top_bubble_box := match rest with
                            | [] => Some (coords_of msg (current_y st))
                            | _ :: _ => top_bubble_box st
                            end;
          drawn := drawn st ++ ops_of msg (current_y st) |}.
Proof.
  pose proof (len_nonneg pre) as Hpre. pose proof (len_nonneg rest) as Hrest.
  assert (E0 : (len pre =? 0) = match pre with [] => true | _ :: _ => false end).
  { destruct pre as [|p pre']; [reflexivity|].
    rewrite len_cons. pose proof (len_nonneg pre'). apply Z.eqb_neq. lia. }
  assert (E1 : (len pre =? len (pre ++ msg :: rest) - 1)
               = match rest with [] => true | _ :: _ => false end).
  { rewrite len_app, len_cons. destruct rest as [|r rest'].
    - change (len (@nil turn)) with 0. apply Z.eqb_eq. lia.
    - rewrite len_cons. pose proof (len_nonneg rest'). apply Z.eqb_neq. lia. }
  assert (E2 : (len pre <? len (pre ++ msg :: rest) - 1)
               = match rest with [] => false | _ :: _ => true end).
  { rewrite len_app, len_cons. destruct rest as [|r rest'].
    - change (len (@nil turn)) with 0. apply Z.ltb_ge. lia.
    - rewrite len_cons. pose proof (len_nonneg rest'). apply Z.ltb_lt. lia. }
  assert (E3 : forall next rest',
             rest = next :: rest' ->
             py_index (pre ++ msg :: rest) (len pre + 1) = Ok next).
  { intros next rest' ->.
    replace (len pre + 1) with (len (pre ++ [msg]))
      by (rewrite len_app, len_cons; reflexivity).
    change (pre ++ msg :: next :: rest') with (pre ++ [msg] ++ next :: rest').
    rewrite app_assoc. apply py_index_app. }
  destruct msg as [role txt].
  unfold loop_body, bubble_ops, bubble_coords. cbn [fst snd].
  rewrite text_block_eq. cbn [bind].
  destruct (block_dims Font textbbox font_bubble
              (wrap_text Font textbbox txt font_bubble
                 (max_text_width_of (fst (image_size cfg)))))
    as [[tw th] lh].
  rewrite E0, E1, E2.
  destruct (str_eqb role (u "sender"));
    destruct rest as [|[next_role next_txt] rest'];
    try rewrite (E3 _ _ eq_refl); cbn [bind gap_above box_top box_left];
    try destruct (str_eqb next_role role); cbn [bind];
    destruct pre; reflexivity.
Qed.

Lemma for_enumerate_spec (items : list turn) :
  forall pre st,
  exists st',
    for_enumerate Font textbbox max_text_width_of cfg font_bubble
      (pre ++ items) (len pre) items st = Ok st'
    /\ drawn st' = drawn st ++ ops_from (current_y st) items
    /\ bottom_bubble_box st'
       = match pre, items with
         | [], msg :: _ => Some (coords_of msg (current_y st))
         | _, _ => bottom_bubble_box st
         end
    /\ top_bubble_box st'
       = last (map Some (boxes_from (current_y st) items)) (top_bubble_box st).
Proof.
  induction items as [|msg rest IH]; intros pre st.
  - exists st. cbn. rewrite app_nil_r. repeat split. destruct pre; reflexivity.
  - cbn [for_enumerate]. rewrite loop_body_eq. cbn [bind].
    set (st1 := {| current_y := _ |}).
    specialize (IH (pre ++ [msg]) st1).
    rewrite <- app_assoc in IH. cbn [app] in IH.
    replace (len (pre ++ [msg])) with (len pre + 1) in IH
      by (rewrite len_app, len_cons; reflexivity).
    destruct IH as (st' & Hrun & Hdrawn & Hbot & Htop).
    exists st'. split; [exact Hrun|]. split; [|split].
    + rewrite Hdrawn. subst st1. cbn [drawn current_y layout_ops].
      now rewrite <- app_assoc.
    + rewrite Hbot. subst st1. cbn [bottom_bubble_box].
      destruct pre; reflexivity.
    + rewrite Htop. subst st1. cbn [top_bubble_box current_y layout_boxes map].
      destruct rest as [|msg2 rest']; reflexivity.
Qed.

End LayoutFacts.

Section RenderFacts.
Import Simulator.

Variable Font : Type.
Variable load_ios_fonts : Z -> Z -> Font * Font.
Variable textbbox : pystr -> Font -> Z * Z * Z * Z.
Variable max_text_width_of : Z -> Z.
Variable cfg : config.

(** The image [generate_chat_image] saves, in closed form: the call never
    raises. *)
Lemma generate_chat_image_eq (messages : list turn) (rand_hour rand_minute : Z) :
  generate_chat_image Font load_ios_fonts textbbox max_text_width_of
    (Some messages) cfg rand_hour rand_minute
  = Ok (output_file cfg,
        {| img_size := image_size cfg;
           img_background := (255, 255, 255);
           img_ops :=
             layout_ops Font textbbox max_text_width_of cfg
               (fst (fonts Font load_ios_fonts cfg)) (start_y cfg) (rev messages)
             ++ seen_ops Font textbbox max_text_width_of cfg
                  (fst (fonts Font load_ios_fonts cfg))
                  (snd (fonts Font load_ios_fonts cfg)) messages
             ++ stamp_ops Font textbbox max_text_width_of cfg
                  (fst (fonts Font load_ios_fonts cfg))
                  (snd (fonts Font load_ios_fonts cfg)) messages
                  (generate_random_timestamp rand_hour rand_minute) |}).
Proof.
  unfold generate_chat_image, seen_ops, stamp_ops, start_y, fonts.
  destruct (image_size cfg) as [img_width img_height].
  destruct (load_ios_fonts (bubble_font_size cfg) (time_font_size cfg))
    as [font_bubble font_time].
  cbn [fst snd].
  set (st0 := {| current_y := img_height - bottom_padding cfg |}).
  destruct (for_enumerate_spec Font textbbox max_text_width_of cfg font_bubble
              (rev messages) [] st0) as (st & Hrun & Hdrawn & Hbot & Htop).
  cbn [app] in Hrun. change (len (@nil turn)) with 0 in Hrun.
  rewrite Hrun. cbn [bind]. rewrite Hdrawn, Hbot, Htop.
  subst st0. cbn [drawn current_y bottom_bubble_box top_bubble_box app].
  destruct (rev messages) as [|newest older] eqn:Erev.
  - cbn. reflexivity.
  - assert (Emsg : messages = rev older ++ [newest]).
    { rewrite <- (rev_involutive messages), Erev. reflexivity. }
    destruct (bubble_coords Font textbbox max_text_width_of cfg font_bubble
                newest (img_height - bottom_padding cfg))
      as [[[l t] r] b] eqn:Ebox.
    rewrite Emsg at 1. rewrite py_index_last. cbn [bind].
    destruct newest as [newest_role newest_txt]. cbn [fst].
    destruct (str_eqb newest_role (u "receiver")).
    + destruct (measure_text Font textbbox (u "Seen just now") font_time)
        as [seen_width seen_height].
      cbn [bind fst box_right box_bottom].
      destruct (last _ None) as [[[[l' t'] r'] b']|]; [|reflexivity].
      destruct (measure_text Font textbbox
                  (generate_random_timestamp rand_hour rand_minute) font_time).
      reflexivity.
    + cbn [bind].
      destruct (last _ None) as [[[[l' t'] r'] b']|]; [|reflexivity].
      destruct (measure_text Font textbbox
                  (generate_random_timestamp rand_hour rand_minute) font_time).
      reflexivity.
Qed.

End RenderFacts.

(** ** The time label *)

Lemma format_02d_two_digits (n : Z) :
  0 <= n < 100 -> Simulator.format_02d n = two_digits n.
Proof.
  intros Hn.
  assert (Hall : forallb (fun k => str_eqb (Simulator.format_02d (Z.of_nat k))
                                     (two_digits (Z.of_nat k)))
                         (seq 0 100) = true) by (vm_compute; reflexivity).
  rewrite forallb_forall in Hall.
  specialize (Hall (Z.to_nat n)).
  rewrite Z2Nat.id in Hall by lia.
  apply str_eqb_eq, Hall, in_seq. lia.
Qed.


Lemma timestamp_form (h m : Z) :
  Simulator.randint 0 23 h -> Simulator.randint 0 59 m ->
  Simulator.generate_random_timestamp h m
  = two_digits h ++ u ":" ++ two_digits m.
Proof.
  unfold Simulator.randint, Simulator.generate_random_timestamp. intros Hh Hm.
  rewrite !format_02d_two_digits by lia. reflexivity.
Qed.

(** ** The geometry of the bubbles *)

Lemma fold_max_ge (l : list Z) : forall a, a <= fold_left Z.max l a.
Proof.
  induction l as [|x l IH]; intros a; simpl; [lia|].
  specialize (IH (Z.max a x)). lia.
Qed.

Lemma fold_add_ge (l : list Z) :
  Forall (fun x => 0 <= x) l -> forall a, a <= fold_left Z.add l a.
Proof.
  induction 1 as [|x l Hx Hl IH]; intros a; simpl; [lia|].
  specialize (IH (a + x)). lia.
Qed.

Section BoxFacts.
Import Simulator.

Variable Font : Type.
Variable textbbox : pystr -> Font -> Z * Z * Z * Z.
Variable max_text_width_of : Z -> Z.
Variable cfg : config.
Variable font_bubble : Font.

Local Notation "'coords_of'" :=
  (bubble_coords Font textbbox max_text_width_of cfg font_bubble).
Local Notation "'boxes_from'" :=
  (layout_boxes Font textbbox max_text_width_of cfg font_bubble).
Local Notation "'ops_from'" :=
  (layout_ops Font textbbox max_text_width_of cfg font_bubble).
Local Notation "'lines_of'" :=
  (fun txt => wrap_text Font textbbox txt font_bubble
                (max_text_width_of (fst (image_size cfg)))).

Lemma bubble_coords_shape (msg : turn) (y : Z) :
  let b := coords_of msg y in
  let dims := block_dims Font textbbox font_bubble (lines_of (snd msg)) in
  box_bottom b = y
  /\ box_right b - box_left b = fst (fst dims) + 2 * bubble_padding
  /\ box_bottom b - box_top b = snd (fst dims) + 2 * bubble_padding
  /\ (str_eqb (fst msg) (u "sender") = true -> box_left b = left_margin cfg)
  /\ (str_eqb (fst msg) (u "sender") = false ->
      box_right b = fst (image_size cfg) - right_margin cfg).
Proof.
  cbv zeta. unfold bubble_coords.
  destruct (block_dims _ _ _ _) as [[tw th] lh].
  destruct (str_eqb (fst msg) (u "sender"));
    cbn [box_bottom box_top box_left box_right fst snd];
    repeat split; try lia; discriminate.
Qed.

(** Measures that are not negative give a block that is not negative. *)
Lemma block_dims_nonneg (lines : list pystr) :
  (forall s, let '(x0, y0, x1, y1) := textbbox s font_bubble in
             x0 <= x1 /\ y0 <= y1) ->
  let dims := block_dims Font textbbox font_bubble lines in
  0 <= fst (fst dims) /\ 0 <= snd (fst dims).
Proof.
  intros Hbox.
  assert (Hm : forall s, 0 <= fst (measure_text Font textbbox s font_bubble)
                         /\ 0 <= snd (measure_text Font textbbox s font_bubble)).
  { intros s. unfold measure_text. specialize (Hbox s).
    destruct (textbbox s font_bubble) as [[[x0 y0] x1] y1]. simpl. lia. }
  destruct lines as [|first rest]; cbn [block_dims fst snd]; [lia|].
  split.
  - pose proof (fold_max_ge
                  (map (fun line => fst (measure_text Font textbbox line font_bubble)) rest)
                  (fst (measure_text Font textbbox first font_bubble))).
    pose proof (proj1 (Hm first)). lia.
  - assert (0 <= py_sum (map (fun line => snd (measure_text Font textbbox line font_bubble))
                           (first :: rest))).
    { unfold py_sum. apply fold_add_ge. apply Forall_forall.
      intros x Hx. apply in_map_iff in Hx. destruct Hx as (s & <- & _).
      apply Hm. }
    rewrite len_cons. pose proof (len_nonneg rest). unfold line_spacing. lia.
Qed.

Lemma layout_boxes_length (items : list turn) :
  forall y, length (boxes_from y items) = length items.
Proof.
  induction items as [|msg rest IH]; intros y; simpl; [reflexivity|].
  now rewrite IH.
Qed.

Lemma layout_boxes_nth (items : list turn) :
  forall y i msg b,
    nth_error items i = Some msg ->
    nth_error (boxes_from y items) i = Some b ->
    exists yi, b = coords_of msg yi.
Proof.
  induction items as [|m0 rest IH]; intros y i msg b Hm Hb.
  - destruct i; discriminate.
  - destruct i as [|i]; cbn [layout_boxes nth_error] in *.
    + inversion Hm; inversion Hb; subst. now exists y.
    + eapply IH; eassumption.
Qed.


Lemma rects_app (a b : list (draw_op Font)) : rects (a ++ b) = rects a ++ rects b.
Proof. apply flat_map_app. Qed.

Lemma draw_lines_parts (lines : list pystr) :
  forall x y lh n idx,
    rects (draw_lines Font font_bubble x y lh n idx lines) = []
    /\ Forall bubble_part (draw_lines Font font_bubble x y lh n idx lines).
Proof.
  induction lines as [|line rest IH]; intros x y lh n idx; cbn [draw_lines].
  - split; [reflexivity | constructor].
  - destruct (IH x (if idx <? n - 1 then y + lh + line_spacing else y + lh)
                lh n (idx + 1)) as [Hr Hp].
    split; [exact Hr | constructor; [reflexivity | exact Hp]].
Qed.

Lemma bubble_ops_parts (msg : turn) (y : Z) :
  rects (bubble_ops Font textbbox max_text_width_of cfg font_bubble msg y)
  = [coords_of msg y]
  /\ Forall bubble_part
       (bubble_ops Font textbbox max_text_width_of cfg font_bubble msg y).
Proof.
  unfold bubble_ops.
  destruct (block_dims _ _ _ _) as [[tw th] lh].
  destruct (if str_eqb (fst msg) (u "sender") then _ else _) as [fill outline].
  match goal with
  | |- context [draw_lines Font font_bubble ?x ?y0 ?l ?n ?i ?ls] =>
      destruct (draw_lines_parts ls x y0 l n i) as [Hr Hp]
  end.
  split.
  - unfold draw_chat_bubble. unfold rects in *. cbn [flat_map].
    rewrite Hr. reflexivity.
  - constructor; [exact I | exact Hp].
Qed.

Lemma layout_ops_parts (items : list turn) :
  forall y,
    rects (ops_from y items) = boxes_from y items
    /\ Forall bubble_part (ops_from y items).
Proof.
  induction items as [|msg rest IH]; intros y; cbn [layout_ops layout_boxes].
  - split; [reflexivity | constructor].
  - destruct (bubble_ops_parts msg y) as [Hr Hp].
    destruct (IH (box_top (coords_of msg y) - gap_above cfg (fst msg) rest))
      as [Hr' Hp'].
    split.
    + rewrite rects_app, Hr, Hr'. reflexivity.
    + apply Forall_app. split; assumption.
Qed.

End BoxFacts.

Lemma split_blank (s : pystr) :
  Forall (fun c => isspace c = true) s -> split s = [].
Proof.
  unfold split. induction 1 as [|c s Hc Hs IH]; simpl; [reflexivity|].
  now rewrite Hc.
Qed.


(** ** The rendered image *)

Section ImageFacts.
Import Simulator.

Variable Font : Type.
Variable load_ios_fonts : Z -> Z -> Font * Font.
Variable textbbox : pystr -> Font -> Z * Z * Z * Z.
Variable max_text_width_of : Z -> Z.
Variable cfg : config.

Local Notation "'font_bubble'" := (fst (fonts Font load_ios_fonts cfg)).
Local Notation "'font_time'" := (snd (fonts Font load_ios_fonts cfg)).
Local Notation "'generate'" :=
  (generate_chat_image Font load_ios_fonts textbbox max_text_width_of).

Lemma seen_ops_rects (messages : list turn) :
  rects (seen_ops Font textbbox max_text_width_of cfg font_bubble font_time messages)
  = [].
Proof.
  unfold seen_ops. destruct (rev messages) as [|newest older]; [reflexivity|].
  destruct (str_eqb (fst newest) (u "receiver")); reflexivity.
Qed.

Lemma stamp_ops_rects (messages : list turn) (time_text : pystr) :
  rects (stamp_ops Font textbbox max_text_width_of cfg font_bubble font_time
           messages time_text) = [].
Proof.
  unfold stamp_ops. destruct (last _ None); reflexivity.
Qed.

(** The call returns; its bubbles are those of the closed form, one for
    each message. *)
Lemma generate_chat_image_boxes (messages : list turn) (rand_hour rand_minute : Z) :
  exists img,
    generate (Some messages) cfg rand_hour rand_minute = Ok (output_file cfg, img)
    /\ bubble_boxes img
       = layout_boxes Font textbbox max_text_width_of cfg font_bubble
           (start_y cfg) (rev messages)
    /\ length (bubble_boxes img) = length messages
    /\ img_ops img
       = layout_ops Font textbbox max_text_width_of cfg font_bubble
           (start_y cfg) (rev messages)
         ++ seen_ops Font textbbox max_text_width_of cfg
              font_bubble font_time messages
         ++ stamp_ops Font textbbox max_text_width_of cfg
              font_bubble font_time messages
              (generate_random_timestamp rand_hour rand_minute).
Proof.
  eexists. split; [apply generate_chat_image_eq|].
  assert (Hb : forall ops : list (draw_op Font),
             bubble_boxes {| img_size := image_size cfg;
                             img_background := (255, 255, 255);
                             img_ops := ops |} = rects ops) by reflexivity.
  rewrite Hb, !rects_app, seen_ops_rects, stamp_ops_rects, !app_nil_r.
  rewrite (proj1 (layout_ops_parts Font textbbox max_text_width_of cfg _ _ _)).
  split; [reflexivity|]. split; [|reflexivity].
  rewrite layout_boxes_length, length_rev. reflexivity.
Qed.

End ImageFacts.

(** ** The properties of the rendering routine *)

Section RenderClaims.
Import Simulator.

Variable Font : Type.
Variable load_ios_fonts : Z -> Z -> Font * Font.
Variable textbbox : pystr -> Font -> Z * Z * Z * Z.
Variable max_text_width_of : Z -> Z.
Variable cfg : config.

Local Notation "'font_bubble'" := (fst (fonts Font load_ios_fonts cfg)).
Local Notation "'font_time'" := (snd (fonts Font load_ios_fonts cfg)).
Local Notation "'generate'" :=
  (generate_chat_image Font load_ios_fonts textbbox max_text_width_of).



(** C4: with bounding boxes that are well formed, every bubble has
    [right > left] and [bottom > top]; the bubble of a sender turn has its
    left edge at [left_margin], and the bubble of any other turn, a
    receiver turn in particular, has its right edge at
    [img_width - right_margin]. *)
Theorem bubble_boxes_anchored (messages : list turn) (rand_hour rand_minute : Z) :
  (forall s, let '(x0, y0, x1, y1) := textbbox s font_bubble in
             x0 <= x1 /\ y0 <= y1) ->
  exists img,
    generate (Some messages) cfg rand_hour rand_minute = Ok (output_file cfg, img)
    /\ length (bubble_boxes img) = length messages
    /\ forall i msg b,
        nth_error (rev messages) i = Some msg ->
        nth_error (bubble_boxes img) i = Some b ->
        box_left b < box_right b
        /\ box_top b < box_bottom b
        /\ (fst msg = u "sender" -> box_left b = left_margin cfg)
        /\ (fst msg <> u "sender" ->
            box_right b = fst (image_size cfg) - right_margin cfg)
        /\ (fst msg = u "receiver" ->
            box_right b = fst (image_size cfg) - right_margin cfg).
Proof.
  intros Hbbox.
  destruct (generate_chat_image_boxes Font load_ios_fonts textbbox
              max_text_width_of cfg messages rand_hour rand_minute)
    as (img & Hrun & Hboxes & Hlen & _).
  exists img. split; [exact Hrun|]. split; [exact Hlen|].
  intros i msg b Hmsg Hb. rewrite Hboxes in Hb.
  destruct (layout_boxes_nth Font textbbox max_text_width_of cfg _ _ _ _ _ _
              Hmsg Hb) as (yi & ->).
  destruct (bubble_coords_shape Font textbbox max_text_width_of cfg
              font_bubble msg yi) as (_ & Hw & Hh & Hleft & Hright).
  destruct (block_dims_nonneg Font textbbox font_bubble
              (wrap_text Font textbbox (snd msg) font_bubble
                 (max_text_width_of (fst (image_size cfg)))) Hbbox)
    as [Htw Hth].
  cbv beta in Hw, Hh. unfold bubble_padding in Hw, Hh.
  split; [lia|]. split; [lia|]. split; [|split].
  - intros E. apply Hleft. now apply str_eqb_eq.
  - intros E. apply Hright.
    destruct (str_eqb (fst msg) (u "sender")) eqn:Eq; [|reflexivity].
    apply str_eqb_eq in Eq. contradiction.
  - intros E. apply Hright. rewrite E. vm_compute. reflexivity.
Qed.

(** C7 (as amended): for a message whose text is empty or made of
    whitespace only, the wrapper returns no line and the call raises
    nothing; the height of a placeholder is measured as the line height,
    while the text block is given width 0 and height 0, so that the bubble
    is a square of two paddings a side whatever the placeholder measures. *)
Theorem blank_message_bubble (messages : list turn) (rand_hour rand_minute : Z) :
  exists img,
    generate (Some messages) cfg rand_hour rand_minute = Ok (output_file cfg, img)
    /\ length (bubble_boxes img) = length messages
    /\ forall i role txt b,
        Forall (fun c => isspace c = true) txt ->
        nth_error (rev messages) i = Some (role, txt) ->
        nth_error (bubble_boxes img) i = Some b ->
        wrap_text Font textbbox txt font_bubble
          (max_text_width_of (fst (image_size cfg))) = []
        /\ text_block Font textbbox font_bubble []
           = Ok (0, 0, snd (measure_text Font textbbox (u "Test") font_bubble))
        /\ box_right b - box_left b = 2 * bubble_padding
        /\ box_bottom b - box_top b = 2 * bubble_padding.
Proof.
  destruct (generate_chat_image_boxes Font load_ios_fonts textbbox
              max_text_width_of cfg messages rand_hour rand_minute)
    as (img & Hrun & Hboxes & Hlen & _).
  exists img. split; [exact Hrun|]. split; [exact Hlen|].
  intros i role txt b Hblank Hmsg Hb. rewrite Hboxes in Hb.
  destruct (layout_boxes_nth Font textbbox max_text_width_of cfg _ _ _ _ _ _
              Hmsg Hb) as (yi & ->).
  assert (Hwrap : forall w, wrap_text Font textbbox txt font_bubble w = []).
  { intros w. unfold wrap_text. rewrite (split_blank txt Hblank). reflexivity. }
  split; [apply Hwrap|]. split; [reflexivity|].
  destruct (bubble_coords_shape Font textbbox max_text_width_of cfg
              font_bubble (role, txt) yi) as (_ & Hw & Hh & _).
  cbv beta in Hw, Hh. cbn [snd] in Hw, Hh. rewrite Hwrap in Hw, Hh.
  cbn [block_dims fst snd] in Hw, Hh. lia.
Qed.


End RenderClaims.

Section AnnotationClaims.
Import Simulator.

Variable Font : Type.
Variable load_ios_fonts : Z -> Z -> Font * Font.
Variable textbbox : pystr -> Font -> Z * Z * Z * Z.
Variable max_text_width_of : Z -> Z.
Variable cfg : config.

Local Notation "'font_bubble'" := (fst (fonts Font load_ios_fonts cfg)).
Local Notation "'font_time'" := (snd (fonts Font load_ios_fonts cfg)).
Local Notation "'generate'" :=
  (generate_chat_image Font load_ios_fonts textbbox max_text_width_of).


(** C9: for a conversation ending in a turn of role [role], the "seen"
    label is drawn exactly when [role] is "receiver"; it is then placed ten
    pixels below the bottom of the newest bubble, its right end at the right
    edge of that bubble, and no other such label is drawn. *)
Theorem seen_label_iff_receiver (older : list turn) (role txt : pystr)
  (rand_hour rand_minute : Z) :
  randint 0 23 rand_hour ->
  randint 0 59 rand_minute ->
  exists img newest,
    generate (Some (older ++ [(role, txt)])) cfg rand_hour rand_minute
    = Ok (output_file cfg, img)
    /\ nth_error (bubble_boxes img) 0 = Some newest
    /\ let seen_text := u "Seen just now" in
       let seen_width := fst (measure_text Font textbbox seen_text font_time) in
       let seen_x := box_right newest - seen_width in
       let seen_y := box_bottom newest + 10 in
       (In (text (seen_x, seen_y) seen_text gray font_time) (img_ops img)
        <-> role = u "receiver")
       /\ (forall xy font,
              In (text xy seen_text gray font) (img_ops img) ->
              role = u "receiver" /\ xy = (seen_x, seen_y) /\ font = font_time)
       /\ seen_x + seen_width = box_right newest
       /\ box_bottom newest < seen_y.
Proof.
  intros Hh Hm.
  destruct (generate_chat_image_boxes Font load_ios_fonts textbbox
              max_text_width_of cfg (older ++ [(role, txt)]) rand_hour rand_minute)
    as (img & Hrun & Hboxes & Hlen & Hops).
  rewrite rev_app_distr in Hboxes, Hops. cbn [rev app] in Hboxes, Hops.
  exists img, (bubble_coords Font textbbox max_text_width_of cfg font_bubble
                 (role, txt) (start_y cfg)).
  split; [exact Hrun|]. split; [rewrite Hboxes; reflexivity|].
  cbv zeta.
  set (newest := bubble_coords _ _ _ _ _ _ _) in *.
  set (label := text _ _ _ _).
  assert (Hseen : seen_ops Font textbbox max_text_width_of cfg font_bubble
                    font_time (older ++ [(role, txt)])
                  = if str_eqb role (u "receiver") then [label] else []).
  { unfold seen_ops. rewrite rev_app_distr. reflexivity. }
  assert (Honly : forall xy font,
             In (text xy (u "Seen just now") gray font) (img_ops img) ->
             role = u "receiver"
             /\ text xy (u "Seen just now") gray font = label).
  { intros xy font Hin. rewrite Hops in Hin.
    apply in_app_or in Hin. destruct Hin as [Hin|Hin].
    - pose proof (proj2 (layout_ops_parts Font textbbox max_text_width_of cfg
                           font_bubble ((role, txt) :: rev older)
                           (start_y cfg))) as Hparts.
      rewrite Forall_forall in Hparts. apply Hparts in Hin. discriminate Hin.
    - apply in_app_or in Hin. destruct Hin as [Hin|Hin].
      + rewrite Hseen in Hin.
        destruct (str_eqb role (u "receiver")) eqn:Er; [|contradiction].
        apply str_eqb_eq in Er. destruct Hin as [Hin|[]]. auto.
      + unfold stamp_ops in Hin. destruct (last _ None); [|contradiction].
        destruct Hin as [Hin|[]]. exfalso.
        assert (Htext : generate_random_timestamp rand_hour rand_minute
                        = u "Seen just now") by (inversion Hin; reflexivity).
        rewrite (timestamp_form _ _ Hh Hm) in Htext.
        apply (f_equal (@length N)) in Htext. discriminate Htext. }
  split; [|split; [|split]].
  - split.
    + intros Hin. apply (Honly _ _ Hin).
    + intros ->. rewrite Hops. apply in_or_app. right. apply in_or_app. left.
      rewrite Hseen. left. reflexivity.
  - intros xy font Hin. destruct (Honly xy font Hin) as [Hrole Heq].
    subst label. inversion Heq. auto.
  - lia.
  - lia.
Qed.

End AnnotationClaims.

(** ** The properties on the fixed-pitch back end *)


(** C7 (as stated) fails: the placeholder measures twenty pixels high, yet
    the bubble of a blank message is sixty-four pixels high, two paddings,
    and not one line and two paddings. *)
Lemma blank_message_not_one_line_tall :
  exists img b,
    Mono.generate_chat_image (Some blank_conversation) Simulator.default_config 7 5
    = Simulator.Ok (u "conversation.png", img)
    /\ Simulator.bubble_boxes img = [b]
    /\ snd (Mono.measure_text (u "Test") true) = 20
    /\ Simulator.box_bottom b - Simulator.box_top b = 64
    /\ Simulator.box_bottom b - Simulator.box_top b
       <> snd (Mono.measure_text (u "Test") true) + 2 * Simulator.bubble_padding.
Proof.
  eexists. exists (108, 1161, 172, 1225).
  split; [vm_compute; reflexivity|].
  split; [vm_compute; reflexivity|].
  split; [vm_compute; reflexivity|].
  split; [vm_compute; reflexivity|].
  vm_compute. discriminate.
Qed.


Lemma bubble_boxes_anchored_witness :
  (forall s, let '(x0, y0, x1, y1) :=
               Mono.textbbox s
                 (fst (fonts Mono.Font Mono.load_ios_fonts Simulator.default_config)) in
             x0 <= x1 /\ y0 <= y1)
  /\ exists img,
      Mono.generate_chat_image (Some Simulator.demo_messages)
        Simulator.default_config 7 5
      = Simulator.Ok (Simulator.output_file Simulator.default_config, img)
      /\ length (Simulator.bubble_boxes img) = length Simulator.demo_messages
      /\ forall i msg b,
          nth_error (rev Simulator.demo_messages) i = Some msg ->
          nth_error (Simulator.bubble_boxes img) i = Some b ->
          Simulator.box_left b < Simulator.box_right b
          /\ Simulator.box_top b < Simulator.box_bottom b
          /\ (fst msg = u "sender" ->
              Simulator.box_left b = Simulator.left_margin Simulator.default_config)
          /\ (fst msg <> u "sender" ->
              Simulator.box_right b
              = fst (Simulator.image_size Simulator.default_config)
                - Simulator.right_margin Simulator.default_config)
          /\ (fst msg = u "receiver" ->
              Simulator.box_right b
              = fst (Simulator.image_size Simulator.default_config)
                - Simulator.right_margin Simulator.default_config).
Proof.
  assert (Hbbox : forall s, let '(x0, y0, x1, y1) :=
                     Mono.textbbox s
                       (fst (fonts Mono.Font Mono.load_ios_fonts
                               Simulator.default_config)) in
                   x0 <= x1 /\ y0 <= y1).
  { intros s. unfold Mono.textbbox. lia. }
  split; [exact Hbbox|].
  apply (bubble_boxes_anchored Mono.Font Mono.load_ios_fonts Mono.textbbox
           Mono.max_text_width_of Simulator.default_config
           Simulator.demo_messages 7 5 Hbbox).
Defined.


Lemma seen_label_iff_receiver_witness :
  Simulator.randint 0 23 7
  /\ Simulator.randint 0 59 5
  /\ exists img newest,
      Mono.generate_chat_image
        (Some ([(u "sender", u "Hello!")] ++ [(u "receiver", u "Hi")]))
        Simulator.default_config 7 5
      = Simulator.Ok (Simulator.output_file Simulator.default_config, img)
      /\ nth_error (Simulator.bubble_boxes img) 0 = Some newest
      /\ In (Simulator.text
               (Simulator.box_right newest - 130, Simulator.box_bottom newest + 10)
               (u "Seen just now") Simulator.gray false)
            (Simulator.img_ops img).
Proof.
  assert (H2 : Simulator.randint 0 23 7) by (unfold Simulator.randint; lia).
  assert (H3 : Simulator.randint 0 59 5) by (unfold Simulator.randint; lia).
  split; [exact H2|]. split; [exact H3|].
  destruct (seen_label_iff_receiver Mono.Font Mono.load_ios_fonts Mono.textbbox
              Mono.max_text_width_of Simulator.default_config
              [(u "sender", u "Hello!")] (u "receiver") (u "Hi") 7 5 H2 H3)
    as (img & newest & Hrun & Hnth & Hiff & _).
  exists img, newest.
  split; [exact Hrun|]. split; [exact Hnth|].
  apply (proj2 Hiff). reflexivity.
Defined.


Lemma blank_message_bubble_witness :
  Forall (fun c => isspace c = true) (u " ")
  /\ exists img b,
      Mono.generate_chat_image (Some blank_conversation)
        Simulator.default_config 7 5
      = Simulator.Ok (Simulator.output_file Simulator.default_config, img)
      /\ nth_error (Simulator.bubble_boxes img) 0 = Some b
      /\ Simulator.box_right b - Simulator.box_left b
         = 2 * Simulator.bubble_padding
      /\ Simulator.box_bottom b - Simulator.box_top b
         = 2 * Simulator.bubble_padding.
Proof.
  assert (Hblank : Forall (fun c => isspace c = true) (u " "))
    by (repeat constructor).
  split; [exact Hblank|].
  destruct (blank_message_bubble Mono.Font Mono.load_ios_fonts Mono.textbbox
              Mono.max_text_width_of Simulator.default_config
              blank_conversation 7 5)
    as (img & Hrun & Hlen & Hbox).
  destruct (Simulator.bubble_boxes img) as [|b rest] eqn:Eboxes;
    [discriminate Hlen|].
  exists img, b. split; [exact Hrun|].
  rewrite Eboxes. split; [reflexivity|].
  destruct (Hbox 0%nat (u "sender") (u " ") b Hblank eq_refl eq_refl)
    as (_ & _ & Hw & Hh).
  split; assumption.
Defined.

(** * Further properties *)

(** ** The segmenter *)

Lemma segment_concat (cl : pystr -> option Parser.turn) (lines : list pystr) :
  forall cur,
    concat (Parser.segment cl cur lines)
    = cur ++ flat_map (fun l => match cl l with Some t => [t] | None => [] end) lines.
Proof.
  induction lines as [|line rest IH]; intros cur; cbn [Parser.segment flat_map].
  - destruct cur; cbn; now rewrite ?app_nil_r.
  - destruct (cl line) as [t|].
    + rewrite IH, <- app_assoc. reflexivity.
    + destruct cur as [|t0 cur']; cbn [concat]; rewrite IH; reflexivity.
Qed.

Lemma segment_delimiter (cl : pystr -> option Parser.turn) (l1 : list pystr) :
  forall cur d l2,
    cl d = None ->
    Parser.segment cl cur (l1 ++ d :: l2)
    = Parser.segment cl cur l1 ++ Parser.segment cl [] l2.
Proof.
  induction l1 as [|line rest IH]; intros cur d l2 Hd; cbn [app Parser.segment].
  - rewrite Hd. destruct cur; reflexivity.
  - destruct (cl line) as [t|].
    + now apply IH.
    + destruct cur; cbn [app]; now rewrite IH.
Qed.

Lemma parse_lines_segment (lines : list pystr) :
  Parser.parse_lines lines = Parser.segment Parser.classify [] lines.
Proof. rewrite parse_lines_finish, parse_loop_segment. reflexivity. Qed.

(** X1: no turn is lost, repeated or moved: the conversations of a
    transcript, put end to end, are the turns of its lines in their
    order. *)
Theorem parse_conversations_keeps_turns (content : pystr) :
  concat (Parser.parse_conversations content)
  = flat_map turns_of_line (readlines content).
Proof.
  unfold Parser.parse_conversations. rewrite parse_lines_segment, segment_concat.
  reflexivity.
Qed.

(** X2: a line that is not a turn separates: the conversations of the
    lines around it are those of the lines before it followed by those of
    the lines after it. *)
Theorem parse_lines_delimiter (before : list pystr) (d : pystr)
  (after : list pystr) :
  Parser.classify d = None ->
  Parser.parse_lines (before ++ d :: after)
  = Parser.parse_lines before ++ Parser.parse_lines after.
Proof.
  intros Hd. rewrite !parse_lines_segment. now apply segment_delimiter.
Qed.

Lemma parse_lines_delimiter_witness :
  Parser.classify (u "---") = None
  /\ Parser.parse_lines ([u "A: hi"] ++ u "---" :: [u "B: yo"])
     = Parser.parse_lines [u "A: hi"] ++ Parser.parse_lines [u "B: yo"].
Proof.
  split; [reflexivity|].
  apply (parse_lines_delimiter [u "A: hi"] (u "---") [u "B: yo"]). reflexivity.
Defined.

Lemma segment_nil_iff (cl : pystr -> option Parser.turn) (lines : list pystr) :
  forall cur,
    Parser.segment cl cur lines = []
    <-> cur = [] /\ Forall (fun l => cl l = None) lines.
Proof.
  induction lines as [|line rest IH]; intros cur; cbn [Parser.segment].
  - destruct cur; split; intros H; try discriminate; auto.
    destruct H; discriminate.
  - destruct (cl line) as [t|] eqn:E.
    + rewrite IH. split.
      * intros [H _]. destruct cur; discriminate.
      * intros [_ H]. inversion H; congruence.
    + destruct cur as [|t0 cur'].
      * rewrite IH. split.
        -- intros [_ H]. split; [reflexivity | now constructor].
        -- intros [_ H]. inversion H; auto.
      * split; [discriminate | intros [H _]; discriminate].
Qed.

(** X4: a transcript yields no conversation exactly when none of its lines
    is a turn. *)
Theorem parse_conversations_empty_iff (content : pystr) :
  Parser.parse_conversations content = []
  <-> Forall (fun line => Parser.classify line = None) (readlines content).
Proof.
  unfold Parser.parse_conversations. rewrite parse_lines_segment, segment_nil_iff.
  tauto.
Qed.

(** *** Stripping *)


Lemma lstrip_head (s : pystr) :
  lstrip s = [] \/ exists c t, lstrip s = c :: t /\ isspace c = false.
Proof.
  induction s as [|c s IH]; [now left|].
  cbn [lstrip]. destruct (isspace c) eqn:E; [exact IH|].
  right. now exists c, s.
Qed.

Lemma lstrip_nonspace (c : N) (t : pystr) :
  isspace c = false -> lstrip (c :: t) = c :: t.
Proof. intros E. cbn [lstrip]. now rewrite E. Qed.

Lemma lstrip_idem (s : pystr) : lstrip (lstrip s) = lstrip s.
Proof.
  destruct (lstrip_head s) as [E|(c & t & E & Hc)]; rewrite E; [reflexivity|].
  now apply lstrip_nonspace.
Qed.

Lemma lstrip_snoc (y : pystr) (c : N) :
  isspace c = false -> exists z, lstrip (y ++ [c]) = z ++ [c].
Proof.
  intros Hc. induction y as [|a y IH]; cbn [app lstrip].
  - rewrite Hc. now exists [].
  - destruct (isspace a); [exact IH|]. now exists (a :: y).
Qed.


Lemma rstrip_idem (x : pystr) : rstrip (rstrip x) = rstrip x.
Proof. unfold rstrip. now rewrite rev_involutive, lstrip_idem. Qed.

Lemma rstrip_keeps_head (c : N) (t : pystr) :
  isspace c = false -> exists r, rstrip (c :: t) = c :: r.
Proof.
  intros Hc. unfold rstrip. cbn [rev].
  destruct (lstrip_snoc (rev t) c Hc) as (z & ->).
  rewrite rev_app_distr. cbn. now exists (rev z).
Qed.

Lemma strip_idem (s : pystr) : strip (strip s) = strip s.
Proof.
  unfold strip.
  destruct (lstrip_head s) as [E|(c & t & E & Hc)]; rewrite E; [reflexivity|].
  destruct (rstrip_keeps_head c t Hc) as (r & Er).
  rewrite Er, (lstrip_nonspace c r Hc), <- Er. apply rstrip_idem.
Qed.




(** X3: every turn emitted has the role "sender" or "receiver", and its
    text carries no whitespace at either end. *)
Theorem parse_conversations_turns_trimmed (content : pystr) :
  Forall (Forall (fun t => (fst t = u "sender" \/ fst t = u "receiver")
                           /\ strip (snd t) = snd t))
         (Parser.parse_conversations content).
Proof.
  apply Forall_forall. intros conv Hconv.
  apply Forall_forall. intros t Ht.
  assert (Hin : In t (concat (Parser.parse_conversations content))).
  { apply in_concat. now exists conv. }
  unfold Parser.parse_conversations in Hin.
  rewrite parse_lines_segment, segment_concat in Hin. cbn [app] in Hin.
  apply in_flat_map in Hin. destruct Hin as (line & _ & Hline).
  unfold Parser.classify in Hline.
  destruct (startswith (strip line) (u "A: ")).
  - destruct Hline as [<-|[]]. cbn [fst snd]. split; [now left | apply strip_idem].
  - destruct (startswith (strip line) (u "B: ")); [|contradiction].
    destruct Hline as [<-|[]]. cbn [fst snd]. split; [now right | apply strip_idem].
Qed.



(** ** The text wrapper *)

Lemma join_space_snoc (ws : list pystr) (w : pystr) :
  ws <> [] -> join_space (ws ++ [w]) = join_space ws ++ space ++ w.
Proof.
  induction ws as [|a ws IH]; intros Hne; [contradiction|].
  destruct ws as [|b ws]; [reflexivity|].
  change (join_space ((a :: b :: ws) ++ [w]))
    with (a ++ space ++ join_space ((b :: ws) ++ [w])).
  rewrite IH by discriminate.
  change (join_space (a :: b :: ws)) with (a ++ space ++ join_space (b :: ws)).
  now rewrite <- !app_assoc.
Qed.

Lemma join_space_nonempty (ws : list pystr) :
  Forall word_ok ws -> ws <> [] -> str_nonempty (join_space ws) = true.
Proof.
  intros Hws Hne. destruct ws as [|a ws]; [contradiction|].
  inversion Hws as [|? ? [Ha _] _]; subst.
  destruct a as [|c a]; [contradiction|].
  destruct ws; reflexivity.
Qed.

Section WrapMore.
Import Simulator.

Variable Font : Type.
Variable textbbox : pystr -> Font -> Z * Z * Z * Z.
Variable font : Font.
Variable max_width : Z.

Lemma tidy_word (w : pystr) : word_ok w -> tidy w.
Proof.
  intros Hw. split; [apply Hw|]. now rewrite (split_word w Hw).
Qed.

Lemma tidy_extend (cur w : pystr) :
  tidy cur -> word_ok w -> tidy (cur ++ space ++ w).
Proof.
  intros [Hne Hj] Hw. split.
  - destruct cur; [contradiction | discriminate].
  - rewrite split_app_space, (split_word w Hw), join_space_snoc, Hj; [reflexivity|].
    intros E. rewrite E in Hj. cbn in Hj. congruence.
Qed.

Lemma wrap_loop_tidy (words : list pystr) :
  forall lines cur,
    Forall word_ok words ->
    Forall tidy lines ->
    cur = [] \/ tidy cur ->
    let '(lines', cur') := wrap_loop Font textbbox font max_width words lines cur in
    Forall tidy lines' /\ (cur' = [] \/ tidy cur').
Proof.
  induction words as [|w rest IH]; intros lines cur Hws Hlines Hcur.
  - cbn. auto.
  - inversion Hws as [|? ? Hw Hrest]; subst. cbn [wrap_loop].
    destruct (measure_text Font textbbox
                (cur ++ (if str_nonempty cur then space else []) ++ w) font)
      as [wd ht].
    destruct (wd <=? max_width).
    + apply IH; auto. right.
      destruct Hcur as [->|Hcur]; [now apply tidy_word|].
      destruct cur as [|c cur]; [destruct Hcur; contradiction|].
      cbn [str_nonempty]. now apply tidy_extend.
    + apply IH; auto.
      * destruct cur as [|c cur]; cbn [str_nonempty]; [assumption|].
        apply Forall_app. split; [assumption|]. constructor; [|constructor].
        destruct Hcur as [Hcur|Hcur]; [discriminate | assumption].
      * right. now apply tidy_word.
Qed.

Lemma wrap_text_tidy (s : pystr) :
  Forall tidy (wrap_text Font textbbox s font max_width).
Proof.
  rewrite wrap_text_pending.
  pose proof (wrap_loop_tidy (split s) [] [] (split_words_ok s)
                (Forall_nil _) (or_introl eq_refl)) as H.
  destruct (wrap_loop Font textbbox font max_width (split s) [] []) as [lines cur].
  destruct H as [Hl Hc]. unfold pending.
  destruct cur as [|c cur]; cbn [str_nonempty]; [exact Hl|].
  apply Forall_app. split; [exact Hl|]. constructor; [|constructor].
  destruct Hc as [Hc|Hc]; [discriminate | exact Hc].
Qed.

End WrapMore.

(** X6: wrapping keeps the words: the words of the lines, read line after
    line, are the words of the text, none lost, split or moved. *)
Theorem wrap_text_keeps_words (Font : Type)
  (textbbox : pystr -> Font -> Z * Z * Z * Z) (font : Font)
  (s : pystr) (max_width : Z) :
  concat (map split (Simulator.wrap_text Font textbbox s font max_width))
  = split s.
Proof. apply wrap_text_words. Qed.

(** X7: no line of the wrapper is empty, and every line is its own words
    joined by single spaces: no whitespace at either end, no run of
    whitespace inside, whatever the whitespace of the text was. *)
Theorem wrap_text_lines_tidy (Font : Type)
  (textbbox : pystr -> Font -> Z * Z * Z * Z) (font : Font)
  (s : pystr) (max_width : Z) :
  Forall (fun line => line <> [] /\ join_space (split line) = line)
         (Simulator.wrap_text Font textbbox s font max_width).
Proof. apply wrap_text_tidy. Qed.

Lemma length_concat_le {A : Type} (ls : list (list A)) :
  Forall (fun l => l <> []) ls -> (length ls <= length (concat ls))%nat.
Proof.
  induction 1 as [|l ls Hl Hls IH]; [apply Nat.le_refl|].
  cbn [concat length]. rewrite length_app.
  destruct l; [contradiction|]. cbn [length]. lia.
Qed.

(** X9: the wrapper never returns more lines than the text has words. *)
Theorem wrap_text_length_le (Font : Type)
  (textbbox : pystr -> Font -> Z * Z * Z * Z) (font : Font)
  (s : pystr) (max_width : Z) :
  (length (Simulator.wrap_text Font textbbox s font max_width)
   <= length (split s))%nat.
Proof.
  rewrite <- (wrap_text_words Font textbbox font max_width s).
  rewrite <- (length_map split) at 1.
  apply length_concat_le. apply Forall_forall. intros ws Hws.
  apply in_map_iff in Hws. destruct Hws as (line & <- & Hline).
  pose proof (wrap_text_tidy Font textbbox font max_width s) as Ht.
  rewrite Forall_forall in Ht. destruct (Ht line Hline) as [Hne Hj].
  intros E. rewrite E in Hj. cbn in Hj. congruence.
Qed.

Section WrapBreaks.
Import Simulator.

Variable Font : Type.
Variable textbbox : pystr -> Font -> Z * Z * Z * Z.
Variable font : Font.
Variable max_width : Z.

Local Notation "'forced'" := (breaks_forced textbbox font max_width).

Lemma breaks_forced_snoc (l : list pystr) :
  forall a b,
    forced (l ++ [a]) ->
    forced_break textbbox font max_width a b ->
    forced (l ++ [a; b]).
Proof.
  induction l as [|x l IH]; intros a b H Hab.
  - cbn. auto.
  - destruct l as [|y l].
    + cbn in *. tauto.
    + cbn [app breaks_forced] in *. destruct H as [Hxy H].
      split; [exact Hxy|]. now apply (IH a b).
Qed.

Lemma breaks_forced_last (l : list pystr) :
  forall a a',
    forced (l ++ [a]) ->
    hd_error (split a') = hd_error (split a) ->
    forced (l ++ [a']).
Proof.
  induction l as [|x l IH]; intros a a' H Hhd.
  - exact I.
  - destruct l as [|y l].
    + cbn in *. destruct H as [(w & Hw & Hlt) _]. split; [|exact I].
      exists w. split; [congruence | exact Hlt].
    + cbn [app breaks_forced] in *. destruct H as [Hxy H].
      split; [exact Hxy|]. now apply (IH a a').
Qed.

Lemma breaks_forced_nth (l : list pystr) :
  forced l ->
  forall i a b,
    nth_error l i = Some a -> nth_error l (S i) = Some b ->
    forced_break textbbox font max_width a b.
Proof.
  induction l as [|x l IH]; intros H i a b Ha Hb; [destruct i; discriminate|].
  destruct l as [|y l]; [destruct i; discriminate|].
  destruct H as [Hxy H]. destruct i as [|i].
  - cbn in Ha, Hb. congruence.
  - apply (IH H i); assumption.
Qed.

Lemma wrap_loop_breaks (words : list pystr) :
  forall lines cur,
    Forall word_ok words ->
    forced (pending lines cur) ->
    (cur = [] -> lines = []) ->
    (cur = [] \/ split cur <> []) ->
    let '(lines', cur') := wrap_loop Font textbbox font max_width words lines cur in
    forced (pending lines' cur').
Proof.
  induction words as [|w rest IH]; intros lines cur Hws Hf Hnil Hcur.
  - exact Hf.
  - inversion Hws as [|? ? Hw Hrest]; subst. cbn [wrap_loop].
    pose proof (split_word w Hw) as Hsw.
    assert (Hwne : w <> []) by apply Hw.
    destruct cur as [|c cur].
    + rewrite (Hnil eq_refl) in *. cbn [str_nonempty app].
      destruct (measure_text Font textbbox w font) as [wd ht].
      assert (Hstart : forced (pending [] w)).
      { unfold pending. destruct w; [contradiction | exact I]. }
      destruct (wd <=? max_width); apply IH; auto;
        try (intros E; congruence); right; rewrite Hsw; discriminate.
    + cbn [str_nonempty].
      destruct Hcur as [Hcur|Hcur]; [discriminate|].
      unfold pending in Hf. cbn [str_nonempty] in Hf.
      destruct (measure_text Font textbbox ((c :: cur) ++ space ++ w) font)
        as [wd ht] eqn:Em.
      destruct (wd <=? max_width) eqn:Ele.
      * apply IH; auto.
        -- unfold pending. cbn [app str_nonempty].
           apply (breaks_forced_last lines (c :: cur)); [exact Hf|].
           change (c :: cur ++ space ++ w) with ((c :: cur) ++ space ++ w).
           rewrite split_app_space.
           destruct (split (c :: cur)); [contradiction | reflexivity].
        -- discriminate.
        -- right. change (c :: cur ++ space ++ w) with ((c :: cur) ++ space ++ w).
           rewrite split_app_space.
           destruct (split (c :: cur)); [contradiction | discriminate].
      * apply IH; auto.
        -- unfold pending. destruct w as [|x w]; [contradiction|].
           cbn [str_nonempty]. rewrite <- app_assoc. cbn [app].
           apply breaks_forced_snoc; [exact Hf|].
           exists (x :: w). split; [now rewrite Hsw|].
           unfold line_width. rewrite Em. cbn [fst].
           apply Z.leb_gt in Ele. lia.
        -- intros ->. contradiction.
        -- right. rewrite Hsw. discriminate.
Qed.

Lemma wrap_text_breaks (s : pystr) :
  forced (wrap_text Font textbbox s font max_width).
Proof.
  rewrite wrap_text_pending.
  pose proof (wrap_loop_breaks (split s) [] [] (split_words_ok s) I
                (fun _ => eq_refl) (or_introl eq_refl)) as H.
  destruct (wrap_loop Font textbbox font max_width (split s) [] []) as [lines cur].
  exact H.
Qed.

(** The text fits on one line, at every word added. *)
Lemma wrap_loop_fits_all (rest : list pystr) :
  forall pre,
    Forall word_ok (pre ++ rest) ->
    (forall k, (1 <= k <= length (pre ++ rest))%nat ->
               line_width textbbox font (join_space (firstn k (pre ++ rest)))
               <= max_width) ->
    wrap_loop Font textbbox font max_width rest [] (join_space pre)
    = ([], join_space (pre ++ rest)).
Proof.
  induction rest as [|w rest IH]; intros pre Hws Hfit.
  - now rewrite app_nil_r.
  - cbn [wrap_loop].
    assert (Htest : join_space pre
                    ++ (if str_nonempty (join_space pre) then space else []) ++ w
                    = join_space (pre ++ [w])).
    { destruct pre as [|p pre]; [reflexivity|].
      rewrite join_space_nonempty, join_space_snoc; try discriminate; [reflexivity|].
      apply Forall_app in Hws. apply Hws. }
    rewrite Htest.
    pose proof (Hfit (length pre + 1)%nat) as Hk.
    rewrite length_app in Hk. cbn [length] in Hk. specialize (Hk ltac:(lia)).
    replace (firstn (length pre + 1) (pre ++ w :: rest)) with (pre ++ [w]) in Hk.
    2:{ change (w :: rest) with ([w] ++ rest). rewrite app_assoc.
        rewrite firstn_app, firstn_all2 by (rewrite length_app; cbn; lia).
        replace (length pre + 1 - length (pre ++ [w]))%nat with 0%nat
          by (rewrite length_app; cbn; lia).
        cbn. now rewrite app_nil_r. }
    unfold line_width in Hk.
    destruct (measure_text Font textbbox (join_space (pre ++ [w])) font)
      as [wd ht]. cbn [fst] in Hk.
    apply Z.leb_le in Hk. rewrite Hk.
    specialize (IH (pre ++ [w])). rewrite <- app_assoc in IH. cbn [app] in IH.
    apply IH; assumption.
Qed.

End WrapBreaks.

(** X8: the wrapper is greedy: between two consecutive lines the break was
    forced, the first word of the second line not fitting at the end of the
    first. *)
Theorem wrap_text_greedy (Font : Type)
  (textbbox : pystr -> Font -> Z * Z * Z * Z) (font : Font)
  (s : pystr) (max_width : Z) (i : nat) (a b : pystr) :
  nth_error (Simulator.wrap_text Font textbbox s font max_width) i = Some a ->
  nth_error (Simulator.wrap_text Font textbbox s font max_width) (S i) = Some b ->
  exists w,
    hd_error (split b) = Some w
    /\ max_width
       < fst (Simulator.measure_text Font textbbox (a ++ space ++ w) font).
Proof.
  intros Ha Hb.
  exact (breaks_forced_nth Font textbbox font max_width _
           (wrap_text_breaks Font textbbox font max_width s) i a b Ha Hb).
Qed.

(** X10: a text that fits the budget at every word added comes back as one
    line, its words joined by single spaces. *)
Theorem wrap_text_single_line (Font : Type)
  (textbbox : pystr -> Font -> Z * Z * Z * Z) (font : Font)
  (s : pystr) (max_width : Z) :
  split s <> [] ->
  (forall k, (1 <= k <= length (split s))%nat ->
             fst (Simulator.measure_text Font textbbox
                    (join_space (firstn k (split s))) font) <= max_width) ->
  Simulator.wrap_text Font textbbox s font max_width = [join_space (split s)].
Proof.
  intros Hne Hfit. rewrite wrap_text_pending.
  pose proof (wrap_loop_fits_all Font textbbox font max_width (split s) []
                (split_words_ok s) Hfit) as H.
  cbn [join_space app] in H. rewrite H. unfold pending.
  rewrite join_space_nonempty; [reflexivity | apply split_words_ok | exact Hne].
Qed.

(** ** The bubbles *)

Lemma fold_max_le (l : list Z) (bound : Z) :
  Forall (fun x => x <= bound) l ->
  forall a, a <= bound -> fold_left Z.max l a <= bound.
Proof.
  induction 1 as [|x l Hx Hl IH]; intros a Ha; cbn [fold_left]; [exact Ha|].
  apply IH. lia.
Qed.

Lemma fold_max_in (l : list Z) : forall a, In (fold_left Z.max l a) (a :: l).
Proof.
  induction l as [|x l IH]; intros a; cbn [fold_left]; [now left|].
  destruct (IH (Z.max a x)) as [H|H].
  - destruct (Z.max_spec a x) as [[_ E]|[_ E]].
    + right. left. rewrite <- H. exact (eq_sym E).
    + left. rewrite <- H. exact (eq_sym E).
  - right. right. exact H.
Qed.

Lemma fold_max_all (l : list Z) :
  forall a, Forall (fun x => x <= fold_left Z.max l a) (a :: l).
Proof.
  induction l as [|x l IH]; intros a; cbn [fold_left].
  - constructor; [lia | constructor].
  - specialize (IH (Z.max a x)). inversion IH as [|? ? Hm Hl]; subst.
    constructor; [lia|]. constructor; [lia | exact Hl].
Qed.

Section LayoutMore.
Import Simulator.

Variable Font : Type.
Variable textbbox : pystr -> Font -> Z * Z * Z * Z.
Variable max_text_width_of : Z -> Z.
Variable cfg : config.
Variable font_bubble : Font.

Local Notation "'coords_of'" :=
  (bubble_coords Font textbbox max_text_width_of cfg font_bubble).
Local Notation "'boxes_from'" :=
  (layout_boxes Font textbbox max_text_width_of cfg font_bubble).
Local Notation "'ops_from'" :=
  (layout_ops Font textbbox max_text_width_of cfg font_bubble).
Local Notation "'lines_of'" :=
  (fun msg : turn => wrap_text Font textbbox (snd msg) font_bubble
                       (max_text_width_of (fst (image_size cfg)))).

(** The operations of a bubble are among those of the layout, at the
    cursor its box shows. *)
Lemma layout_ops_incl (items : list turn) :
  forall y i msg b,
    nth_error items i = Some msg ->
    nth_error (boxes_from y items) i = Some b ->
    b = coords_of msg (box_bottom b)
    /\ incl (bubble_ops Font textbbox max_text_width_of cfg font_bubble msg
               (box_bottom b))
            (ops_from y items).
Proof.
  induction items as [|m0 rest IH]; intros y i msg b Hm Hb.
  - destruct i; discriminate.
  - destruct i as [|i]; cbn [layout_boxes layout_ops nth_error] in *.
    + inversion Hm; inversion Hb; subst.
      destruct (bubble_coords_shape Font textbbox max_text_width_of cfg
                  font_bubble msg y) as (Hbot & _).
      rewrite Hbot. split; [reflexivity|]. apply incl_appl, incl_refl.
    + destruct (IH _ i msg b Hm Hb) as [Hc Hincl].
      split; [exact Hc | now apply incl_appr].
Qed.


Lemma draw_lines_texts (lines : list pystr) :
  forall x y lh n idx,
    drawn_texts black (draw_lines Font font_bubble x y lh n idx lines) = lines.
Proof.
  induction lines as [|l0 rest IH]; intros x y lh n idx; [reflexivity|].
  cbn [draw_lines]. unfold drawn_texts in *. cbn [flat_map].
  rewrite IH. reflexivity.
Qed.

Lemma drawn_texts_app (fill : color) (a b : list (draw_op Font)) :
  drawn_texts fill (a ++ b) = drawn_texts fill a ++ drawn_texts fill b.
Proof. apply flat_map_app. Qed.

Lemma layout_ops_texts (items : list turn) :
  forall y, drawn_texts black (ops_from y items) = flat_map lines_of items.
Proof.
  induction items as [|msg rest IH]; intros y; [reflexivity|].
  cbn [layout_ops flat_map]. rewrite drawn_texts_app, IH. f_equal.
  unfold bubble_ops.
  destruct (block_dims _ _ _ _) as [[tw th] lh].
  destruct (if str_eqb (fst msg) (u "sender") then _ else _) as [fill outline].
  unfold draw_chat_bubble.
  change (drawn_texts black (rounded_rectangle ?b ?r ?f ?o ?w :: ?l))
    with (drawn_texts black l).
  apply draw_lines_texts.
Qed.

End LayoutMore.

Lemma wrap_text_line_ok (Font : Type)
  (textbbox : pystr -> Font -> Z * Z * Z * Z) (font : Font)
  (s : pystr) (max_width : Z) :
  Forall (line_ok textbbox font max_width (split s))
         (Simulator.wrap_text Font textbbox s font max_width).
Proof.
  rewrite wrap_text_pending.
  pose proof (wrap_loop_fits Font textbbox font max_width (split s) (split s)
                [] [] (incl_refl _) (Forall_nil _) (or_introl eq_refl)) as H.
  destruct (Simulator.wrap_loop Font textbbox font max_width (split s) [] [])
    as [lines cur].
  destruct H as [Hl Hc]. unfold pending.
  destruct cur as [|c cur]; cbn [str_nonempty]; [exact Hl|].
  apply Forall_app. split; [exact Hl|]. constructor; [|constructor].
  destruct Hc as [Hc|Hc]; [discriminate | exact Hc].
Qed.

Section ImageMore.
Import Simulator.

Variable Font : Type.
Variable load_ios_fonts : Z -> Z -> Font * Font.
Variable textbbox : pystr -> Font -> Z * Z * Z * Z.
Variable max_text_width_of : Z -> Z.
Variable cfg : config.

Local Notation "'font_bubble'" := (fst (fonts Font load_ios_fonts cfg)).
Local Notation "'font_time'" := (snd (fonts Font load_ios_fonts cfg)).
Local Notation "'budget'" := (max_text_width_of (fst (image_size cfg))).

Lemma seen_ops_texts (messages : list turn) :
  drawn_texts black
    (seen_ops Font textbbox max_text_width_of cfg font_bubble font_time messages)
  = [].
Proof.
  unfold seen_ops. destruct (rev messages) as [|newest older]; [reflexivity|].
  destruct (str_eqb (fst newest) (u "receiver")); reflexivity.
Qed.

Lemma stamp_ops_texts (messages : list turn) (time_text : pystr) :
  drawn_texts black
    (stamp_ops Font textbbox max_text_width_of cfg font_bubble font_time
       messages time_text) = [].
Proof.
  unfold stamp_ops. destruct (last _ None); reflexivity.
Qed.

(** X11: the newest bubble stands on the bottom padding: its lower edge is
    at the height of the image less [bottom_padding]. *)
Theorem newest_bubble_on_bottom_padding (messages : list turn)
  (rand_hour rand_minute : Z) :
  exists img,
    generate_chat_image Font load_ios_fonts textbbox max_text_width_of
      (Some messages) cfg rand_hour rand_minute = Ok (output_file cfg, img)
    /\ forall b,
        nth_error (bubble_boxes img) 0 = Some b ->
        box_bottom b = snd (image_size cfg) - bottom_padding cfg.
Proof.
  destruct (generate_chat_image_boxes Font load_ios_fonts textbbox
              max_text_width_of cfg messages rand_hour rand_minute)
    as (img & Hrun & Hboxes & _).
  exists img. split; [exact Hrun|]. intros b Hb. rewrite Hboxes in Hb.
  destruct (rev messages) as [|msg rest]; [discriminate|].
  cbn [layout_boxes nth_error] in Hb. inversion Hb; subst.
  apply (bubble_coords_shape Font textbbox max_text_width_of cfg font_bubble
           msg (start_y cfg)).
Qed.

(** X12: with a budget that is not negative, the bubble of a message none
    of whose words is wider than the budget is at most the budget and two
    paddings wide. *)
Theorem bubble_width_bounded (messages : list turn) (rand_hour rand_minute : Z) :
  0 <= max_text_width_of (fst (image_size cfg)) ->
  exists img,
    generate_chat_image Font load_ios_fonts textbbox max_text_width_of
      (Some messages) cfg rand_hour rand_minute = Ok (output_file cfg, img)
    /\ forall i msg b,
        nth_error (rev messages) i = Some msg ->
        nth_error (bubble_boxes img) i = Some b ->
        Forall (fun w => fst (measure_text Font textbbox w font_bubble)
                         <= max_text_width_of (fst (image_size cfg)))
               (split (snd msg)) ->
        box_right b - box_left b
        <= max_text_width_of (fst (image_size cfg)) + 2 * bubble_padding.
Proof.
  intros Hbudget.
  destruct (generate_chat_image_boxes Font load_ios_fonts textbbox
              max_text_width_of cfg messages rand_hour rand_minute)
    as (img & Hrun & Hboxes & _).
  exists img. split; [exact Hrun|]. intros i msg b Hmsg Hb Hwords.
  rewrite Hboxes in Hb.
  destruct (layout_boxes_nth Font textbbox max_text_width_of cfg _ _ _ _ _ _
              Hmsg Hb) as (yi & ->).
  destruct (bubble_coords_shape Font textbbox max_text_width_of cfg
              font_bubble msg yi) as (_ & Hw & _).
  cbv beta in Hw. rewrite Hw.
  pose proof (wrap_text_line_ok Font textbbox font_bubble (snd msg) budget) as Hok.
  assert (Hfit : Forall (fun line => fst (measure_text Font textbbox line font_bubble)
                                     <= budget)
                        (wrap_text Font textbbox (snd msg) font_bubble budget)).
  { rewrite Forall_forall in *. intros line Hline.
    destruct (Hok line Hline) as [Hle|[Hin Hgt]]; [exact Hle|].
    specialize (Hwords line Hin). unfold line_width in Hgt. lia. }
  destruct (wrap_text Font textbbox (snd msg) font_bubble budget)
    as [|first rest]; cbn [block_dims fst snd]; [lia|].
  inversion Hfit as [|? ? Hfirst Hrest]; subst.
  assert (fold_left Z.max
            (map (fun line => fst (measure_text Font textbbox line font_bubble)) rest)
            (fst (measure_text Font textbbox first font_bubble)) <= budget).
  { apply fold_max_le; [|exact Hfirst].
    apply Forall_forall. intros x Hx. apply in_map_iff in Hx.
    destruct Hx as (line & <- & Hline).
    rewrite Forall_forall in Hrest. now apply Hrest. }
  lia.
Qed.

(** X13: what is written in the bubbles is the messages: the strings drawn
    in black are, in order, the wrapped lines of the messages from the
    newest to the oldest. *)
Theorem bubble_texts_are_messages (messages : list turn)
  (rand_hour rand_minute : Z) :
  exists img,
    generate_chat_image Font load_ios_fonts textbbox max_text_width_of
      (Some messages) cfg rand_hour rand_minute = Ok (output_file cfg, img)
    /\ drawn_texts black (img_ops img)
       = flat_map (fun msg => wrap_text Font textbbox (snd msg) font_bubble
                                (max_text_width_of (fst (image_size cfg))))
                  (rev messages).
Proof.
  destruct (generate_chat_image_boxes Font load_ios_fonts textbbox
              max_text_width_of cfg messages rand_hour rand_minute)
    as (img & Hrun & _ & _ & Hops).
  exists img. split; [exact Hrun|].
  rewrite Hops, !drawn_texts_app, seen_ops_texts, stamp_ops_texts, !app_nil_r.
  apply layout_ops_texts.
Qed.


(** X15: the values drawn for the time label do not move the bubbles nor
    change what is written in them. *)
Theorem layout_independent_of_draws (messages : list turn)
  (h1 m1 h2 m2 : Z) :
  exists img1 img2,
    generate_chat_image Font load_ios_fonts textbbox max_text_width_of
      (Some messages) cfg h1 m1 = Ok (output_file cfg, img1)
    /\ generate_chat_image Font load_ios_fonts textbbox max_text_width_of
         (Some messages) cfg h2 m2 = Ok (output_file cfg, img2)
    /\ bubble_boxes img1 = bubble_boxes img2
    /\ drawn_texts black (img_ops img1) = drawn_texts black (img_ops img2).
Proof.
  destruct (generate_chat_image_boxes Font load_ios_fonts textbbox
              max_text_width_of cfg messages h1 m1)
    as (img1 & Hrun1 & Hboxes1 & _ & Hops1).
  destruct (generate_chat_image_boxes Font load_ios_fonts textbbox
              max_text_width_of cfg messages h2 m2)
    as (img2 & Hrun2 & Hboxes2 & _ & Hops2).
  exists img1, img2. split; [exact Hrun1|]. split; [exact Hrun2|].
  split; [congruence|].
  rewrite Hops1, Hops2, !drawn_texts_app, !seen_ops_texts, !stamp_ops_texts.
  reflexivity.
Qed.

(** X16: a bubble is a rounded rectangle of radius 50 and outline 3, white
    with a light gray outline for the sender, light gray with a white
    outline for any other role. *)
Theorem bubble_colors_by_role (messages : list turn) (rand_hour rand_minute : Z) :
  exists img,
    generate_chat_image Font load_ios_fonts textbbox max_text_width_of
      (Some messages) cfg rand_hour rand_minute = Ok (output_file cfg, img)
    /\ forall i msg b,
        nth_error (rev messages) i = Some msg ->
        nth_error (bubble_boxes img) i = Some b ->
        In (if str_eqb (fst msg) (u "sender")
            then rounded_rectangle b 50 (255, 255, 255) (230, 230, 230) 3
            else rounded_rectangle b 50 (240, 240, 240) (255, 255, 255) 3)
           (img_ops img).
Proof.
  destruct (generate_chat_image_boxes Font load_ios_fonts textbbox
              max_text_width_of cfg messages rand_hour rand_minute)
    as (img & Hrun & Hboxes & _ & Hops).
  exists img. split; [exact Hrun|]. intros i msg b Hmsg Hb.
  rewrite Hboxes in Hb. rewrite Hops.
  destruct (layout_ops_incl Font textbbox max_text_width_of cfg font_bubble
              _ _ _ _ _ Hmsg Hb) as [Hc Hincl].
  assert (Hin : In (if str_eqb (fst msg) (u "sender")
                    then rounded_rectangle b 50 (255, 255, 255) (230, 230, 230) 3
                    else rounded_rectangle b 50 (240, 240, 240) (255, 255, 255) 3)
                   (bubble_ops Font textbbox max_text_width_of cfg font_bubble
                      msg (box_bottom b))).
  { unfold bubble_ops. rewrite <- Hc.
    destruct (block_dims _ _ _ _) as [[tw th] lh].
    destruct (str_eqb (fst msg) (u "sender")); left; reflexivity. }
  apply in_or_app. left. apply Hincl, Hin.
Qed.

(** X17: a bubble that holds text is as wide as its widest line and two
    paddings, and as tall as its lines, the spacings between them and two
    paddings. *)
Theorem bubble_hugs_text (messages : list turn) (rand_hour rand_minute : Z) :
  exists img,
    generate_chat_image Font load_ios_fonts textbbox max_text_width_of
      (Some messages) cfg rand_hour rand_minute = Ok (output_file cfg, img)
    /\ forall i msg b,
        nth_error (rev messages) i = Some msg ->
        nth_error (bubble_boxes img) i = Some b ->
        let lines := wrap_text Font textbbox (snd msg) font_bubble
                       (max_text_width_of (fst (image_size cfg))) in
        lines <> [] ->
        Forall (fun line => fst (measure_text Font textbbox line font_bubble)
                            + 2 * bubble_padding <= box_right b - box_left b) lines
        /\ Exists (fun line => fst (measure_text Font textbbox line font_bubble)
                               + 2 * bubble_padding = box_right b - box_left b) lines
        /\ box_bottom b - box_top b
           = py_sum (map (fun line => snd (measure_text Font textbbox line font_bubble))
                       lines)
             + line_spacing * (len lines - 1) + 2 * bubble_padding.
Proof.
  destruct (generate_chat_image_boxes Font load_ios_fonts textbbox
              max_text_width_of cfg messages rand_hour rand_minute)
    as (img & Hrun & Hboxes & _).
  exists img. split; [exact Hrun|]. intros i msg b Hmsg Hb lines Hne.
  rewrite Hboxes in Hb.
  destruct (layout_boxes_nth Font textbbox max_text_width_of cfg _ _ _ _ _ _
              Hmsg Hb) as (yi & ->).
  destruct (bubble_coords_shape Font textbbox max_text_width_of cfg
              font_bubble msg yi) as (_ & Hw & Hh & _).
  cbv beta in Hw, Hh. fold lines in Hw, Hh. rewrite Hw, Hh.
  destruct lines as [|first rest]; [contradiction|].
  cbn [block_dims fst snd].
  set (width := fun line => fst (measure_text Font textbbox line font_bubble)).
  pose proof (fold_max_all (map width rest) (width first)) as Hall.
  pose proof (fold_max_in (map width rest) (width first)) as Hin.
  change (width first :: map width rest) with (map width (first :: rest)) in Hall, Hin.
  split; [|split; [|reflexivity]].
  - apply Forall_forall. intros line Hline.
    rewrite Forall_forall in Hall.
    specialize (Hall (width line) (in_map width _ _ Hline)).
    unfold width in *. lia.
  - apply in_map_iff in Hin. destruct Hin as (line & Hline & Hmem).
    apply Exists_exists. exists line. split; [exact Hmem|].
    unfold width in *. lia.
Qed.

End ImageMore.

(** ** [main] and the command line *)

Lemma u_inj (a b : string) : u a = u b -> a = b.
Proof.
  unfold u. intros E.
  rewrite <- (string_of_list_ascii_of_string a), <- (string_of_list_ascii_of_string b).
  f_equal. revert E. generalize (list_ascii_of_string a) (list_ascii_of_string b).
  induction l as [|x l IH]; intros [|y l'] E; try discriminate; [reflexivity|].
  cbn [map] in E. inversion E as [[Exy El]]. f_equal; [|now apply IH].
  rewrite <- (ascii_N_embedding x), <- (ascii_N_embedding y). now rewrite Exy.
Qed.

Lemma to_int_proper (n : Z) :
  Z.to_int n <> Decimal.Pos Decimal.Nil /\ Z.to_int n <> Decimal.Neg Decimal.Nil.
Proof.
  destruct n as [|p|p]; cbn; split; try discriminate;
    intros E; inversion E as [E']; now apply (Unsigned.to_uint_nonnil p).
Qed.

Lemma str_of_int_inj (n m : Z) :
  Simulator.str_of_int n = Simulator.str_of_int m -> n = m.
Proof.
  unfold Simulator.str_of_int. intros E. apply u_inj in E.
  apply DecimalZ.to_int_inj.
  destruct (to_int_proper n) as [Hn1 Hn2], (to_int_proper m) as [Hm1 Hm2].
  pose proof (NilZero.isi _ Hn1 Hn2) as In.
  pose proof (NilZero.isi _ Hm1 Hm2) as Im.
  rewrite E in In. congruence.
Qed.

Lemma path_join_name (dir : pystr) (i : Z) :
  Cli.path_join dir (Cli.conversation_name i)
  = dir_prefix dir ++ Cli.conversation_name i.
Proof.
  unfold Cli.path_join, dir_prefix.
  change (startswith (Cli.conversation_name i) (u "/")) with false. cbv iota.
  destruct (negb (str_nonempty dir) || _); [reflexivity|].
  now rewrite <- app_assoc.
Qed.

Lemma path_join_name_inj (dir : pystr) (i j : Z) :
  Cli.path_join dir (Cli.conversation_name i)
  = Cli.path_join dir (Cli.conversation_name j) -> i = j.
Proof.
  rewrite !path_join_name. unfold Cli.conversation_name. intros E.
  apply app_inv_head in E. apply app_inv_head in E. apply app_inv_tail in E.
  now apply str_of_int_inj.
Qed.

Lemma NoDup_map_inj {A B : Type} (f : A -> B) (l : list A) :
  (forall a b, f a = f b -> a = b) -> NoDup l -> NoDup (map f l).
Proof.
  intros Hinj. induction 1 as [|x l Hx Hl IH]; cbn [map]; constructor; [|exact IH].
  intros Hin. apply in_map_iff in Hin. destruct Hin as (y & Hy & Hyl).
  apply Hinj in Hy. subst. contradiction.
Qed.

Section MainFacts.

Variable Font : Type.
Variable load_ios_fonts : Z -> Z -> Font * Font.
Variable textbbox : pystr -> Font -> Z * Z * Z * Z.
Variable max_text_width_of : Z -> Z.
Variable read_file : pystr -> option pystr.
Variable draws : Z -> Z * Z.

Local Notation "'render'" :=
  (Cli.render_all Font load_ios_fonts textbbox max_text_width_of draws).
Local Notation "'run_main'" :=
  (Cli.main Font load_ios_fonts textbbox max_text_width_of read_file draws).

(** The loop of [main] never stops early: one file a conversation, named
    by its ordinal, holding one bubble a turn. *)
Lemma render_all_spec (output_dir : pystr) (conversations : list Parser.conversation) :
  forall i,
  exists files,
    render output_dir i conversations = (files, Cli.Done)
    /\ map fst files
       = map (fun k => Cli.path_join output_dir
                         (Cli.conversation_name (i + Z.of_nat k)))
             (seq 0 (length conversations))
    /\ Forall2 (fun conv file =>
                  length (Simulator.bubble_boxes (snd file)) = length conv
                  /\ Simulator.img_size (snd file) = (1290, 1290))
               conversations files.
Proof.
  induction conversations as [|convo rest IH]; intros i.
  - exists []. repeat split. constructor.
  - cbn [Cli.render_all].
    destruct (generate_chat_image_boxes Font load_ios_fonts textbbox
                max_text_width_of
                (Cli.main_config (Cli.path_join output_dir (Cli.conversation_name i)))
                convo (fst (draws i)) (snd (draws i)))
      as (img & Hrun & _ & Hlen & _).
    pose proof (generate_chat_image_eq Font load_ios_fonts textbbox
                  max_text_width_of
                  (Cli.main_config (Cli.path_join output_dir (Cli.conversation_name i)))
                  convo (fst (draws i)) (snd (draws i))) as Heq.
    rewrite Hrun in Heq.
    apply (f_equal (fun r => match r with
                             | Simulator.Ok (_, im) => Simulator.img_size im
                             | Simulator.Raise _ => (0, 0)
                             end)) in Heq.
    cbn [Simulator.img_size Simulator.image_size Cli.main_config] in Heq.
    match goal with
    | |- context [Simulator.generate_chat_image ?F ?l ?t ?w ?msgs ?c ?h ?m] =>
        replace (Simulator.generate_chat_image F l t w msgs c h m)
          with (Simulator.Ok (Simulator.output_file c, img))
          by (symmetry; exact Hrun)
    end. cbn [Simulator.output_file Cli.main_config].
    destruct (IH (i + 1)) as (files & Hfiles & Hnames & Hall).
    rewrite Hfiles.
    exists ((Cli.path_join output_dir (Cli.conversation_name i), img) :: files).
    split; [reflexivity|]. split.
    + cbn [map fst length seq]. rewrite Z.add_0_r. f_equal.
      rewrite Hnames, <- seq_shift, map_map.
      apply map_ext. intros k. do 2 f_equal. lia.
    + constructor; [|exact Hall]. cbn [snd]. split; [exact Hlen | exact Heq].
Qed.

Lemma ordinal_names (output_dir : pystr) (n : nat) :
  map (fun k => Cli.path_join output_dir (Cli.conversation_name (1 + Z.of_nat k)))
      (seq 0 n)
  = map (fun i => Cli.path_join output_dir (Cli.conversation_name i)) (ordinals n).
Proof.
  unfold ordinals. rewrite <- seq_shift, !map_map.
  apply map_ext. intros k. do 2 f_equal. lia.
Qed.

(** X18: given a file it can read, [main] makes the directory "content"
    under the working directory and the directory of the run under it, and
    ends normally having saved one image for each conversation of the
    transcript, named conversation_1.png, conversation_2.png, ... in the
    directory of the run. *)
Theorem main_saves_every_conversation (cwd timestamp input_file content : pystr) :
  read_file input_file = Some content ->
  let output_dir := Cli.path_join (Cli.path_join cwd (u "content")) timestamp in
  let r := Cli.main Font load_ios_fonts textbbox max_text_width_of read_file draws
             cwd timestamp input_file in
  Cli.ending r = Cli.Done
  /\ Cli.made_dirs r = [Cli.path_join cwd (u "content"); output_dir]
  /\ map fst (Cli.saved r)
     = map (fun i => Cli.path_join output_dir (Cli.conversation_name i))
           (ordinals (length (Parser.parse_conversations content))).
Proof.
  intros Hread. cbv zeta. unfold Cli.main. rewrite Hread.
  destruct (render_all_spec
              (Cli.path_join (Cli.path_join cwd (u "content")) timestamp)
              (Parser.parse_conversations content) 1)
    as (files & Hfiles & Hnames & _).
  rewrite Hfiles. cbn [Cli.ending Cli.made_dirs Cli.saved].
  split; [reflexivity|]. split; [reflexivity|].
  rewrite Hnames. apply ordinal_names.
Qed.

(** X19: the images of a run are saved under names that differ two by two:
    no image overwrites another. *)
Theorem main_file_names_distinct (cwd timestamp input_file : pystr) :
  NoDup (map fst (Cli.saved
                    (Cli.main Font load_ios_fonts textbbox max_text_width_of
                       read_file draws cwd timestamp input_file))).
Proof.
  unfold Cli.main. destruct (read_file input_file) as [content|]; [|constructor].
  destruct (render_all_spec
              (Cli.path_join (Cli.path_join cwd (u "content")) timestamp)
              (Parser.parse_conversations content) 1)
    as (files & Hfiles & Hnames & _).
  rewrite Hfiles. cbn [Cli.saved]. rewrite Hnames, ordinal_names.
  apply NoDup_map_inj.
  - intros i j. apply path_join_name_inj.
  - unfold ordinals. apply NoDup_map_inj; [|apply seq_NoDup].
    intros a b. apply Nat2Z.inj.
Qed.


(** X21: a run of the script either reads the file named by its first
    argument and goes through as [main] does, or it ends in an error having
    made no directory and saved no image: without an argument the exit
    status is 1, with a file that cannot be read the failure is that
    of [open]. *)
Theorem script_all_or_nothing (cwd timestamp : pystr) (argv : list pystr) :
  let r := Cli.script Font load_ios_fonts textbbox max_text_width_of read_file
             draws cwd timestamp argv in
  (exists prog input_file others content,
      argv = prog :: input_file :: others
      /\ read_file input_file = Some content
      /\ r = Cli.main Font load_ios_fonts textbbox max_text_width_of read_file
               draws cwd timestamp input_file
      /\ Cli.ending r = Cli.Done)
  \/ (Cli.made_dirs r = [] /\ Cli.saved r = []
      /\ ((length argv < 2)%nat /\ Cli.ending r = Cli.Exit 1
          \/ exists prog input_file others,
               argv = prog :: input_file :: others
               /\ read_file input_file = None
               /\ Cli.ending r = Cli.Failed Cli.FileNotFound)).
Proof.
  cbv zeta. unfold Cli.script.
  destruct argv as [|prog [|input_file others]].
  - right. cbn. repeat split. left. split; [lia | reflexivity].
  - right. cbn. repeat split. left. split; [lia | reflexivity].
  - assert (Hlen : (Simulator.len (prog :: input_file :: others) <? 2) = false).
    { rewrite !len_cons. pose proof (len_nonneg others). apply Z.ltb_ge. lia. }
    rewrite Hlen.
    change (Simulator.py_index (prog :: input_file :: others) 1)
      with (Simulator.py_index ([prog] ++ input_file :: others)
              (Simulator.len [prog])).
    rewrite py_index_app.
    destruct (read_file input_file) as [content|] eqn:Hread.
    + left. exists prog, input_file, others, content.
      split; [reflexivity|]. split; [exact Hread|]. split; [reflexivity|].
      unfold Cli.main. rewrite Hread.
      destruct (render_all_spec
                  (Cli.path_join (Cli.path_join cwd (u "content")) timestamp)
                  (Parser.parse_conversations content) 1)
        as (files & Hfiles & _).
      rewrite Hfiles. reflexivity.
    + right. unfold Cli.main. rewrite Hread. cbn. repeat split.
      right. exists prog, input_file, others. auto.
Qed.

End MainFacts.

(** ** The fonts *)

Section FontFacts.

Variable Font : Type.
Variable isfile : pystr -> bool.
Variable truetype : pystr -> Z -> option Font.
Variable load_default : Font.




Lemma try_helvetica_finds (names : list pystr) (font_size time_size : Z)
  (path : pystr) (a b : Font) :
  In path names -> isfile path = true ->
  truetype path font_size = Some a -> truetype path time_size = Some b ->
  Fonts.try_helvetica Font isfile truetype names font_size time_size <> None.
Proof.
  intros Hin Hfile Ha Hb.
  induction names as [|n rest IH]; [contradiction|].
  cbn [Fonts.try_helvetica]. destruct Hin as [->|Hin].
  - rewrite Hfile. unfold Fonts.try_load. rewrite Ha, Hb. discriminate.
  - destruct (isfile n); [|now apply IH].
    destruct (Fonts.try_load Font truetype n n font_size time_size);
      [discriminate | now apply IH].
Qed.

End FontFacts.


(** X23: a Helvetica candidate that is a file and loads at both sizes
    keeps the default font away: the warning is not printed. *)
Theorem load_ios_fonts_helvetica_suffices (Font : Type) (isfile : pystr -> bool)
  (truetype : pystr -> Z -> option Font) (load_default : Font)
  (font_size time_size : Z) (path : pystr) (a b : Font) :
  In path Fonts.helvetica_names ->
  isfile path = true ->
  truetype path font_size = Some a ->
  truetype path time_size = Some b ->
  snd (Fonts.load_ios_fonts Font isfile truetype load_default font_size time_size)
  = [].
Proof.
  intros Hin Hfile Ha Hb. unfold Fonts.load_ios_fonts.
  pose proof (try_helvetica_finds Font isfile truetype Fonts.helvetica_names
                font_size time_size path a b Hin Hfile Ha Hb) as Hh.
  destruct (match Fonts.find_sf isfile Fonts.possible_sf_fonts with
            | Some p => Fonts.try_load Font truetype p p font_size time_size
            | None => None
            end); [reflexivity|].
  destruct (Fonts.try_helvetica _ _ _ _ _ _); [reflexivity | contradiction].
Qed.

(** X24: only the first San Francisco candidate that is a file is tried.
    When it fails to load, the other San Francisco files are passed over,
    loadable or not: the result is the one of a file system without any of
    them. *)
Theorem load_ios_fonts_first_sf_only (Font : Type) (isfile : pystr -> bool)
  (truetype : pystr -> Z -> option Font) (load_default : Font)
  (font_size time_size : Z) (path : pystr) :
  Fonts.find_sf isfile Fonts.possible_sf_fonts = Some path ->
  Fonts.try_load Font truetype path path font_size time_size = None ->
  Fonts.load_ios_fonts Font isfile truetype load_default font_size time_size
  = Fonts.load_ios_fonts Font (without_sf isfile) truetype load_default
      font_size time_size.
Proof.
  intros Hfind Htry. unfold Fonts.load_ios_fonts. rewrite Hfind, Htry.
  assert (Hsf : Fonts.find_sf (without_sf isfile) Fonts.possible_sf_fonts = None).
  { unfold Fonts.possible_sf_fonts, without_sf. cbn [Fonts.find_sf].
    repeat match goal with
           | |- context [existsb ?f ?l] =>
               let v := eval vm_compute in (existsb f l) in
               change (existsb f l) with v
           end.
    cbn [negb]. rewrite !andb_false_r. reflexivity. }
  assert (Hhelv : Fonts.try_helvetica Font (without_sf isfile) truetype
                    Fonts.helvetica_names font_size time_size
                  = Fonts.try_helvetica Font isfile truetype
                      Fonts.helvetica_names font_size time_size).
  { unfold Fonts.helvetica_names, without_sf. cbn [Fonts.try_helvetica].
    repeat match goal with
           | |- context [existsb ?f ?l] =>
               let v := eval vm_compute in (existsb f l) in
               change (existsb f l) with v
           end.
    cbn [negb]. rewrite !andb_true_r. reflexivity. }
  rewrite Hsf, Hhelv. reflexivity.
Qed.

(** ** The further properties on examples *)

Lemma wrap_text_greedy_witness :
  nth_error (Simulator.wrap_text Mono.Font Mono.textbbox (u "aa bb") true 30) 0
  = Some (u "aa")
  /\ nth_error (Simulator.wrap_text Mono.Font Mono.textbbox (u "aa bb") true 30) 1
     = Some (u "bb")
  /\ exists w,
      hd_error (split (u "bb")) = Some w
      /\ 30 < fst (Simulator.measure_text Mono.Font Mono.textbbox
                     (u "aa" ++ space ++ w) true).
Proof.
  split; [reflexivity|]. split; [reflexivity|].
  apply (wrap_text_greedy Mono.Font Mono.textbbox true (u "aa bb") 30 0
           (u "aa") (u "bb")); reflexivity.
Defined.

Lemma wrap_text_single_line_witness :
  split (u " Hello   world ") <> []
  /\ (forall k, (1 <= k <= length (split (u " Hello   world ")))%nat ->
                fst (Simulator.measure_text Mono.Font Mono.textbbox
                       (join_space (firstn k (split (u " Hello   world ")))) true)
                <= 774)
  /\ Simulator.wrap_text Mono.Font Mono.textbbox (u " Hello   world ") true 774
     = [u "Hello world"].
Proof.
  assert (H1 : split (u " Hello   world ") <> []) by (vm_compute; discriminate).
  assert (H2 : forall k, (1 <= k <= length (split (u " Hello   world ")))%nat ->
                 fst (Simulator.measure_text Mono.Font Mono.textbbox
                        (join_space (firstn k (split (u " Hello   world ")))) true)
                 <= 774).
  { intros k Hk.
    change (length (split (u " Hello   world "))) with 2%nat in Hk.
    destruct k as [|[|[|k]]]; [lia | | | lia]; vm_compute; discriminate. }
  split; [exact H1|]. split; [exact H2|].
  apply (wrap_text_single_line Mono.Font Mono.textbbox true
           (u " Hello   world ") 774 H1 H2).
Defined.

Lemma bubble_width_bounded_witness :
  0 <= Mono.max_text_width_of
         (fst (Simulator.image_size Simulator.default_config))
  /\ exists img,
      Simulator.generate_chat_image Mono.Font Mono.load_ios_fonts Mono.textbbox
        Mono.max_text_width_of (Some Simulator.demo_messages)
        Simulator.default_config 7 5
      = Simulator.Ok (Simulator.output_file Simulator.default_config, img)
      /\ forall i msg b,
          nth_error (rev Simulator.demo_messages) i = Some msg ->
          nth_error (Simulator.bubble_boxes img) i = Some b ->
          Forall (fun w =>
                    fst (Simulator.measure_text Mono.Font Mono.textbbox w
                           (fst (fonts Mono.Font Mono.load_ios_fonts
                                   Simulator.default_config)))
                    <= Mono.max_text_width_of
                         (fst (Simulator.image_size Simulator.default_config)))
                 (split (snd msg)) ->
          Simulator.box_right b - Simulator.box_left b
          <= Mono.max_text_width_of
               (fst (Simulator.image_size Simulator.default_config))
             + 2 * Simulator.bubble_padding.
Proof.
  assert (H : 0 <= Mono.max_text_width_of
                     (fst (Simulator.image_size Simulator.default_config)))
    by (vm_compute; discriminate).
  split; [exact H|].
  apply (bubble_width_bounded Mono.Font Mono.load_ios_fonts Mono.textbbox
           Mono.max_text_width_of Simulator.default_config
           Simulator.demo_messages 7 5 H).
Defined.

Lemma main_saves_every_conversation_witness :
  Demo.read_file (u "chat.txt") = Some sample_transcript
  /\ Cli.ending (Cli.main Mono.Font Mono.load_ios_fonts Mono.textbbox
                   Mono.max_text_width_of Demo.read_file Demo.draws
                   (u "/home") (u "run") (u "chat.txt")) = Cli.Done
  /\ map fst (Cli.saved (Cli.main Mono.Font Mono.load_ios_fonts Mono.textbbox
                           Mono.max_text_width_of Demo.read_file Demo.draws
                           (u "/home") (u "run") (u "chat.txt")))
     = [u "/home/content/run/conversation_1.png";
        u "/home/content/run/conversation_2.png"].
Proof.
  assert (H : Demo.read_file (u "chat.txt") = Some sample_transcript)
    by reflexivity.
  split; [exact H|].
  destruct (main_saves_every_conversation Mono.Font Mono.load_ios_fonts
              Mono.textbbox Mono.max_text_width_of Demo.read_file Demo.draws
              (u "/home") (u "run") (u "chat.txt") sample_transcript H)
    as (Hend & _ & Hnames).
  split; [exact Hend|]. rewrite Hnames. vm_compute. reflexivity.
Defined.


Lemma load_ios_fonts_helvetica_suffices_witness :
  In (u "fonts/HelveticaNeue.ttf") Fonts.helvetica_names
  /\ Demo.isfile_helvetica (u "fonts/HelveticaNeue.ttf") = true
  /\ Demo.truetype (u "fonts/HelveticaNeue.ttf") 40
     = Some (Some (u "fonts/HelveticaNeue.ttf", 40))
  /\ Demo.truetype (u "fonts/HelveticaNeue.ttf") 34
     = Some (Some (u "fonts/HelveticaNeue.ttf", 34))
  /\ snd (Fonts.load_ios_fonts Demo.Font Demo.isfile_helvetica Demo.truetype
            None 40 34) = [].
Proof.
  assert (H1 : In (u "fonts/HelveticaNeue.ttf") Fonts.helvetica_names)
    by (right; left; reflexivity).
  split; [exact H1|]. split; [reflexivity|]. split; [reflexivity|].
  split; [reflexivity|].
  apply (load_ios_fonts_helvetica_suffices Demo.Font Demo.isfile_helvetica
           Demo.truetype None 40 34 (u "fonts/HelveticaNeue.ttf")
           (Some (u "fonts/HelveticaNeue.ttf", 40))
           (Some (u "fonts/HelveticaNeue.ttf", 34)) H1);
    reflexivity.
Defined.

Lemma load_ios_fonts_first_sf_only_witness :
  Fonts.find_sf Demo.isfile_sf Fonts.possible_sf_fonts
  = Some (u "fonts/sf-pro-text-regular.ttf")
  /\ Fonts.try_load Demo.Font Demo.truetype (u "fonts/sf-pro-text-regular.ttf")
       (u "fonts/sf-pro-text-regular.ttf") 40 34 = None
  /\ Demo.isfile_sf (u "fonts/SanFrancisco.ttf") = true
  /\ Demo.truetype (u "fonts/SanFrancisco.ttf") 40
     = Some (Some (u "fonts/SanFrancisco.ttf", 40))
  /\ Fonts.load_ios_fonts Demo.Font Demo.isfile_sf Demo.truetype None 40 34
     = Fonts.load_ios_fonts Demo.Font (without_sf Demo.isfile_sf) Demo.truetype
         None 40 34.
Proof.
  split; [reflexivity|]. split; [reflexivity|]. split; [reflexivity|].
  split; [reflexivity|].
  apply (load_ios_fonts_first_sf_only Demo.Font Demo.isfile_sf Demo.truetype
           None 40 34 (u "fonts/sf-pro-text-regular.ttf")); reflexivity.
Defined.

(** ** The canvas *)

Section CanvasFacts.
Import Simulator.

Variable Font : Type.
Variable load_ios_fonts : Z -> Z -> Font * Font.
Variable textbbox : pystr -> Font -> Z * Z * Z * Z.
Variable max_text_width_of : Z -> Z.
Variable cfg : config.

Local Notation "'font_bubble'" := (fst (fonts Font load_ios_fonts cfg)).
Local Notation "'font_time'" := (snd (fonts Font load_ios_fonts cfg)).




End CanvasFacts.
